(** * Similarity engine of Oratio-Postscript (app/services/similarity_service.py)

    The engine is written once, generically over the numeric operations it
    uses (the [Num] class below, standing for numpy's float64 dtype), and
    instantiated twice:
    - [binary64]: Rocq's primitive IEEE-754 binary64 floats, the arithmetic
      numpy and scipy actually perform;
    - [exact_reals]: the same code over the real numbers, i.e. the algorithm
      without rounding, used for statements "up to floating-point tolerance".

    Exceptions are modelled by a result type; the Python exception classes of
    app/core/exceptions.py by a record carrying message, error code and the
    [details] dict (an association list in insertion order). *)

From Stdlib Require Import ZArith Bool List String Ascii Decimal.
From Stdlib Require Import Floats.
From Stdlib Require Import Reals Lra Lia.
Import ListNotations.

Open Scope string_scope.

(** ** Numeric interface (float64 as numpy and the math module use it) *)

Class Num (F : Type) := {
  num_add : F -> F -> F;
  num_sub : F -> F -> F;
  num_mul : F -> F -> F;
  num_div : F -> F -> F;
  num_sqrt : F -> F;          (** IEEE square root: NaN below zero *)
  num_abs : F -> F;
  num_ltb : F -> F -> bool;   (** Python/C [<] *)
  num_leb : F -> F -> bool;   (** Python/C [<=] *)
  num_isnan : F -> bool;      (** [np.isnan] *)
  num_ratio : Z -> Z -> F     (** the literal n/d, correctly rounded *)
}.

(** ** Python values and the exception hierarchy (app/core/exceptions.py) *)

Inductive PyValue :=
| PyStr (s : string)
| PyInt (n : nat).

(** Python's [dict.__setitem__] on an insertion-ordered dict. *)
Fixpoint dict_set (d : list (string * PyValue)) (k : string) (v : PyValue)
  : list (string * PyValue) :=
  match d with
  | [] => [(k, v)]
  | (k', v') :: d' =>
      if String.eqb k k' then (k, v) :: d' else (k', v') :: dict_set d' k v
  end.

(** [dict.update] *)
Definition dict_update (d e : list (string * PyValue)) : list (string * PyValue) :=
  fold_left (fun acc kv => dict_set acc (fst kv) (snd kv)) e d.

Inductive ErrorClass :=
| CValidationError
| CSimilarityError.

Record ApiError := {
  err_class : ErrorClass;
  err_message : string;
  err_code : string;
  err_details : list (string * PyValue)
}.

(** [ValidationError(message, field=None, details=None)] *)
Definition ValidationError (message : string) (field : option string)
  (details : list (string * PyValue)) : ApiError :=
  let validation_details :=
    match field with Some f => [("field", PyStr f)] | None => [] end in
  {| err_class := CValidationError;
     err_message := message;
     err_code := "VALIDATION_ERROR";
     err_details := dict_update validation_details details |}.

(** [SimilarityError(message, details=None)] *)
Definition SimilarityError (message : string) : ApiError :=
  {| err_class := CSimilarityError;
     err_message := message;
     err_code := "SIMILARITY_CALCULATION_ERROR";
     err_details := [] |}.

(** A call either returns or raises. *)
Inductive Result (A : Type) :=
| Ok (a : A)
| Err (e : ApiError).
Arguments Ok {A} a.
Arguments Err {A} e.

Definition bind {A B} (m : Result A) (k : A -> Result B) : Result B :=
  match m with Ok a => k a | Err e => Err e end.

Notation "x <- m ;; k" := (bind m (fun x => k))
  (at level 61, m at next level, right associativity).

(** [str(n)] for a non-negative int *)
Fixpoint uint_to_string (d : uint) : string :=
  match d with
  | Nil => ""
  | D0 d => String "0" (uint_to_string d)
  | D1 d => String "1" (uint_to_string d)
  | D2 d => String "2" (uint_to_string d)
  | D3 d => String "3" (uint_to_string d)
  | D4 d => String "4" (uint_to_string d)
  | D5 d => String "5" (uint_to_string d)
  | D6 d => String "6" (uint_to_string d)
  | D7 d => String "7" (uint_to_string d)
  | D8 d => String "8" (uint_to_string d)
  | D9 d => String "9" (uint_to_string d)
  end.

Definition py_str_int (n : nat) : string := uint_to_string (Nat.to_uint n).

(** ** The engine *)

Section Engine.
Context {F : Type} `{Num F}.

Record SimilarityResult := {
  score : F;
  normalized_score : F;
  interpretation : string
}.

Definition f0 : F := num_ratio 0 1.      (* 0.0 *)
Definition f1 : F := num_ratio 1 1.      (* 1.0 *)
Definition f2 : F := num_ratio 2 1.      (* 2.0 *)
Definition fm1 : F := num_ratio (-1) 1.  (* -1.0 *)

(** [np.clip(x, lo, hi)] on float64: [_NPY_MIN(_NPY_MAX(x, lo), hi)] with the
    NaN-propagating [_NPY_MAX(a,b) = isnan(a) ? a : (a > b ? a : b)] and
    [_NPY_MIN(a,b) = isnan(a) ? a : (a < b ? a : b)]. *)
Definition np_clip (x lo hi : F) : F :=
  let m := if num_isnan x then x else if num_ltb lo x then x else lo in
  if num_isnan m then m else if num_ltb m hi then m else hi.

(** [np.dot(u, v)] on 1-D float64 arrays of equal length: the sum of the
    products, accumulated from 0.0 in index order. *)
Fixpoint dot_acc (acc : F) (u v : list F) : F :=
  match u, v with
  | a :: u', b :: v' => dot_acc (num_add acc (num_mul a b)) u' v'
  | _, _ => acc
  end.

Definition np_dot (u v : list F) : F := dot_acc f0 u v.

(** [np.isclose(x, 0)] with the defaults [rtol=1e-05], [atol=1e-08]:
    [abs(x - 0) <= atol + rtol * abs(0)]. *)
Definition isclose_zero (x : F) : bool :=
  num_leb (num_abs (num_sub x f0))
          (num_add (num_ratio 1 100000000) (num_mul (num_ratio 1 100000) (num_abs f0))).

(** [np.allclose(arr, 0)] *)
Definition allclose_zero (arr : list F) : bool := forallb isclose_zero arr.

(** [math.sqrt]: raises [ValueError("math domain error")] below zero. *)
Definition math_sqrt (x : F) : Result F :=
  if num_ltb x f0 then Err (SimilarityError "math domain error") else Ok (num_sqrt x).

(** [scipy.spatial.distance.cosine(u, v)] (via [correlation(u, v, centered=False)]):
    [uv = dot(u, v); uu = dot(u, u); vv = dot(v, v);
     dist = 1.0 - uv / math.sqrt(uu * vv); return np.clip(dist, 0.0, 2.0)]. *)
Definition scipy_cosine (u v : list F) : Result F :=
  let uv := np_dot u v in
  let uu := np_dot u u in
  let vv := np_dot v v in
  s <- math_sqrt (num_mul uu vv) ;;
  let dist := num_sub f1 (num_div uv s) in
  Ok (np_clip dist f0 f2).

(** [SimilarityService.calculate_cosine_similarity] *)
Definition calculate_cosine_similarity (vector1 vector2 : list F) : Result F :=
  if (match vector1 with [] => true | _ => false end)
     || (match vector2 with [] => true | _ => false end) then
    Err (ValidationError "Vectors cannot be empty" (Some "vectors") [])
  else if negb (Nat.eqb (List.length vector1) (List.length vector2)) then
    Err (ValidationError
           ("Vector dimensions must match: " ++ py_str_int (List.length vector1)
              ++ " vs " ++ py_str_int (List.length vector2))
           (Some "vector_dimensions")
           [("vector1_dim", PyInt (List.length vector1));
            ("vector2_dim", PyInt (List.length vector2))])
  else
    (* try: *)
    if allclose_zero vector1 || allclose_zero vector2 then Ok f0
    else
      match scipy_cosine vector1 vector2 with
      | Err e => (* except Exception as e: raise SimilarityError(...) *)
          Err (SimilarityError ("Similarity calculation error: " ++ err_message e))
      | Ok c =>
          let similarity := num_sub f1 c in
          if num_isnan similarity then Ok f0
          else Ok (np_clip similarity fm1 f1)
      end.

(** [SimilarityService.normalize_similarity_score] *)
Definition normalize_similarity_score (cosine_score : F) : F :=
  let normalized := num_div (num_add cosine_score f1) f2 in
  np_clip normalized f0 f1.

(** [SimilarityService.interpret_similarity_score] *)
Definition interpret_similarity_score (normalized_score : F) : string :=
  if num_leb (num_ratio 9 10) normalized_score then "Very High Similarity"
  else if num_leb (num_ratio 8 10) normalized_score then "High Similarity"
  else if num_leb (num_ratio 7 10) normalized_score then "Moderate-High Similarity"
  else if num_leb (num_ratio 6 10) normalized_score then "Moderate Similarity"
  else if num_leb (num_ratio 5 10) normalized_score then "Low-Moderate Similarity"
  else if num_leb (num_ratio 3 10) normalized_score then "Low Similarity"
  else "Very Low Similarity".

(** [SimilarityService.calculate_similarity] *)
Definition calculate_similarity (vector1 vector2 : list F) : Result SimilarityResult :=
  cosine_score <- calculate_cosine_similarity vector1 vector2 ;;
  let normalized_score := normalize_similarity_score cosine_score in
  let interpretation := interpret_similarity_score normalized_score in
  Ok {| score := cosine_score;
        normalized_score := normalized_score;
        interpretation := interpretation |}.

(** The result appended for a candidate whose calculation raised. *)
Definition failed_result : SimilarityResult :=
  {| score := f0; normalized_score := f0; interpretation := "Calculation Failed" |}.

(** One iteration of the loop body: [try: ... except Exception: ...]. *)
Definition batch_slot (reference_vector comparison_vector : list F) : SimilarityResult :=
  match calculate_similarity reference_vector comparison_vector with
  | Ok result => result
  | Err _ => failed_result
  end.

(** [SimilarityService.calculate_batch_similarities] *)
Definition calculate_batch_similarities (reference_vector : list F)
  (comparison_vectors : list (list F)) : Result (list SimilarityResult) :=
  match comparison_vectors with
  | [] => Err (ValidationError "Comparison vectors list cannot be empty"
                 (Some "comparison_vectors") [])
  | _ =>
      Ok (fold_left (fun results cv => (results ++ [batch_slot reference_vector cv])%list)
            comparison_vectors [])
  end.

End Engine.

Arguments SimilarityResult F : clear implicits.

(** ** Instances *)

(** Small integers as binary64 (exact below 2^53). *)
Definition float_of_Z (z : Z) : float :=
  match z with
  | Z0 => PrimFloat.zero
  | Zpos p => PrimFloat.of_uint63 (Uint63.of_Z (Zpos p))
  | Zneg p => PrimFloat.opp (PrimFloat.of_uint63 (Uint63.of_Z (Zpos p)))
  end.

(** numpy float64: IEEE-754 binary64, round to nearest even. *)
#[export] Instance binary64 : Num float := {|
  num_add := PrimFloat.add;
  num_sub := PrimFloat.sub;
  num_mul := PrimFloat.mul;
  num_div := PrimFloat.div;
  num_sqrt := PrimFloat.sqrt;
  num_abs := PrimFloat.abs;
  num_ltb := PrimFloat.ltb;
  num_leb := PrimFloat.leb;
  num_isnan := PrimFloat.is_nan;
  num_ratio n d := PrimFloat.div (float_of_Z n) (float_of_Z d)
|}.

Definition Rleb (x y : R) : bool := if Rle_dec x y then true else false.
Definition Rltb (x y : R) : bool := if Rlt_dec x y then true else false.

(** The same operations without rounding. *)
#[export] Instance exact_reals : Num R := {|
  num_add := Rplus;
  num_sub := Rminus;
  num_mul := Rmult;
  num_div := Rdiv;
  num_sqrt := R_sqrt.sqrt;
  num_abs := Rabs;
  num_ltb := Rltb;
  num_leb := Rleb;
  num_isnan _ := false;
  num_ratio n d := Rdiv (IZR n) (IZR d)
|}.

Definition fl (n : Z) : float := float_of_Z n.

Example dims_message :
  match calculate_cosine_similarity [fl 1; fl 2] [fl 1; fl 2; fl 3] with
  | Err e => err_message e
  | Ok _ => ""
  end = "Vector dimensions must match: 2 vs 3".
Proof. vm_compute. reflexivity. Qed.

(** ** Facts about binary64 used below *)

Definition sf_is_finite (f : spec_float) : bool :=
  match f with S754_zero _ | S754_finite _ _ _ => true | _ => false end.

Lemma is_nan_Prim2SF (x : float) :
  PrimFloat.is_nan x = match Prim2SF x with S754_nan => true | _ => false end.
Proof.
  unfold PrimFloat.is_nan. rewrite FloatAxioms.eqb_spec.
  unfold SFeqb, SFcompare.
  destruct (Prim2SF x) as [s|s| |s m e]; try destruct s; try reflexivity;
    rewrite Z.compare_refl, Pos.compare_cont_refl; reflexivity.
Qed.

Lemma ltb_leb_f (x y : float) : PrimFloat.ltb x y = true -> PrimFloat.leb x y = true.
Proof.
  rewrite ltb_spec, leb_spec. unfold SFltb, SFleb.
  destruct (SFcompare _ _) as [[| |]|]; congruence.
Qed.

Lemma leb_refl_f (x : float) : PrimFloat.is_nan x = false -> PrimFloat.leb x x = true.
Proof.
  rewrite is_nan_Prim2SF, leb_spec. unfold SFleb, SFcompare.
  destruct (Prim2SF x) as [s|s| |s m e]; try destruct s; try reflexivity; try discriminate;
    intros _; rewrite Z.compare_refl, Pos.compare_cont_refl; reflexivity.
Qed.

Lemma mul_comm_f (x y : float) : PrimFloat.mul x y = PrimFloat.mul y x.
Proof.
  apply Prim2SF_inj. rewrite !mul_spec. unfold SF64mul, SFmul.
  destruct (Prim2SF x) as [sx|sx| |sx mx ex], (Prim2SF y) as [sy|sy| |sy my ey];
    try reflexivity; rewrite (xorb_comm sx sy); try reflexivity.
  rewrite (Pos.mul_comm mx my), (Z.add_comm ex ey). reflexivity.
Qed.

(** Rounding keeps a non-negative significand non-negative, so it never
    produces a NaN. *)
Lemma shr_1_nonneg (mrs : shr_record) : (0 <= shr_m mrs)%Z -> (0 <= shr_m (shr_1 mrs))%Z.
Proof.
  destruct mrs as [m r s]; destruct m as [|[p|p|]|p]; simpl; lia.
Qed.

Lemma iter_shr_1_nonneg (p : positive) (mrs : shr_record) :
  (0 <= shr_m mrs)%Z -> (0 <= shr_m (SpecFloat.iter_pos shr_1 p mrs))%Z.
Proof.
  revert mrs; induction p; intros mrs Hm; simpl; auto using shr_1_nonneg.
Qed.

Lemma shr_fexp_nonneg (prec emax m e : Z) (l : location) :
  (0 <= m)%Z -> (0 <= shr_m (fst (shr_fexp prec emax m e l)))%Z.
Proof.
  intros Hm. unfold shr_fexp, shr.
  assert (H0 : (0 <= shr_m (shr_record_of_loc m l))%Z)
    by (destruct l as [|[| |]]; exact Hm).
  destruct (fexp prec emax (Zdigits2 m + e) - e)%Z; simpl; auto using iter_shr_1_nonneg.
Qed.

Lemma round_nearest_even_nonneg (mx : Z) (lx : location) :
  (0 <= mx)%Z -> (0 <= round_nearest_even mx lx)%Z.
Proof.
  destruct lx as [|[| |]]; simpl; try destruct (Z.even mx); lia.
Qed.

Lemma binary_round_aux_not_nan (prec emax : Z) sx mx ex lx :
  (0 <= mx)%Z -> binary_round_aux prec emax sx mx ex lx <> S754_nan.
Proof.
  intros Hm. unfold binary_round_aux.
  pose proof (shr_fexp_nonneg prec emax mx ex lx Hm) as H1.
  destruct (shr_fexp prec emax mx ex lx) as [mrs' e'].
  pose proof (shr_fexp_nonneg prec emax
                (round_nearest_even (shr_m mrs') (loc_of_shr_record mrs')) e' loc_Exact
                (round_nearest_even_nonneg _ _ H1)) as H2.
  destruct (shr_fexp prec emax _ e' loc_Exact) as [mrs'' e''].
  simpl in H2. destruct (shr_m mrs''); [discriminate | | lia].
  destruct (Z.leb _ _); discriminate.
Qed.

Lemma binary_normalize_not_nan (prec emax m e : Z) (s : bool) :
  binary_normalize prec emax m e s <> S754_nan.
Proof.
  destruct m as [|p|p]; simpl; [discriminate| |];
    unfold binary_round; destruct (shl_align _ _ _) as [mz ez];
    apply binary_round_aux_not_nan; lia.
Qed.

Lemma add_finite_not_nan (x y : float) :
  sf_is_finite (Prim2SF x) = true -> sf_is_finite (Prim2SF y) = true ->
  PrimFloat.is_nan (PrimFloat.add x y) = false.
Proof.
  rewrite is_nan_Prim2SF, add_spec. unfold SF64add, SFadd.
  destruct (Prim2SF x) as [sx|sx| |sx mx ex], (Prim2SF y) as [sy|sy| |sy my ey];
    simpl; intros Hx Hy; try discriminate; try reflexivity.
  - destruct sx, sy; reflexivity.
  - destruct (binary_normalize _ _ _ _ _) eqn:E; try reflexivity.
    exfalso; exact (binary_normalize_not_nan _ _ _ _ _ E).
Qed.

Lemma div_finite_not_nan (x y : float) (sy : bool) (my : positive) (ey : Z) :
  PrimFloat.is_nan x = false -> Prim2SF y = S754_finite sy my ey ->
  PrimFloat.is_nan (PrimFloat.div x y) = false.
Proof.
  rewrite !is_nan_Prim2SF, div_spec. intros Hx Hy. rewrite Hy.
  unfold SF64div, SFdiv.
  destruct (Prim2SF x) as [sx|sx| |sx mx ex]; try reflexivity; try discriminate.
  unfold SFdiv_core_binary.
  set (m' := match _ with Zpos _ => _ | Z0 => _ | Zneg _ => _ end).
  assert (Hm' : (0 <= m')%Z).
  { subst m'. destruct (_ - _ - _)%Z; try lia. apply Z.shiftl_nonneg; lia. }
  destruct (Z.div_eucl m' (Zpos my)) as [q r] eqn:Ed.
  assert (Hq : (0 <= q)%Z).
  { replace q with (m' / Zpos my)%Z by (unfold Z.div; rewrite Ed; reflexivity).
    apply Z.div_pos; lia. }
  destruct (binary_round_aux _ _ _ _ _ _) eqn:E; try reflexivity.
  exfalso; exact (binary_round_aux_not_nan _ _ _ _ _ _ Hq E).
Qed.

Lemma np_clip_bounds_f (x lo hi : float) :
  PrimFloat.is_nan x = false -> PrimFloat.is_nan lo = false ->
  PrimFloat.is_nan hi = false -> PrimFloat.leb lo hi = true ->
  PrimFloat.leb lo (np_clip x lo hi) = true /\ PrimFloat.leb (np_clip x lo hi) hi = true.
Proof.
  intros Hx Hlo Hhi Hle. unfold np_clip; simpl. rewrite Hx.
  destruct (PrimFloat.ltb lo x) eqn:E1.
  - rewrite Hx. destruct (PrimFloat.ltb x hi) eqn:E2;
      split; auto using ltb_leb_f, leb_refl_f.
  - rewrite Hlo. destruct (PrimFloat.ltb lo hi) eqn:E2;
      split; auto using ltb_leb_f, leb_refl_f.
Qed.

(** ** Generic facts about the engine *)

Section EngineFacts.
Context {F : Type} `{Num F}.

Definition raw_score_of (r : Result (SimilarityResult F)) : option F :=
  match r with Ok res => Some (score res) | Err _ => None end.

Definition result_value {A} (r : Result A) : option A :=
  match r with Ok a => Some a | Err _ => None end.

Lemma raw_score_of_calculate_similarity (v1 v2 : list F) :
  raw_score_of (calculate_similarity v1 v2)
  = result_value (calculate_cosine_similarity v1 v2).
Proof.
  unfold calculate_similarity, bind.
  destruct (calculate_cosine_similarity v1 v2); reflexivity.
Qed.

Lemma calculate_similarity_ok (v1 v2 : list F) (r : SimilarityResult F) :
  calculate_similarity v1 v2 = Ok r ->
  calculate_cosine_similarity v1 v2 = Ok (score r) /\
  normalized_score r = normalize_similarity_score (score r) /\
  interpretation r = interpret_similarity_score (normalized_score r).
Proof.
  unfold calculate_similarity, bind.
  destruct (calculate_cosine_similarity v1 v2) as [c|e]; intros E; inversion E; subst.
  repeat split; reflexivity.
Qed.

Lemma cosine_ok_cases (v1 v2 : list F) (c : F) :
  calculate_cosine_similarity v1 v2 = Ok c ->
  c = f0 \/ exists s, num_isnan s = false /\ c = np_clip s fm1 f1.
Proof.
  unfold calculate_cosine_similarity.
  destruct (_ || _); [discriminate|].
  destruct (negb _); [discriminate|].
  destruct (allclose_zero v1 || allclose_zero v2).
  - intros E; inversion E; auto.
  - destruct (scipy_cosine v1 v2) as [d|e]; [|discriminate].
    destruct (num_isnan (num_sub f1 d)) eqn:En; intros E; inversion E; eauto.
Qed.

Lemma fold_batch_map (ref : list F) (cands : list (list F)) (acc : list (SimilarityResult F)) :
  fold_left (fun results cv => (results ++ [batch_slot ref cv])%list) cands acc
  = (acc ++ map (batch_slot ref) cands)%list.
Proof.
  revert acc; induction cands as [|c cands IH]; intros acc; simpl.
  - rewrite app_nil_r; reflexivity.
  - rewrite IH, <- app_assoc; reflexivity.
Qed.

Lemma batch_map (ref : list F) (cands : list (list F)) :
  cands <> [] ->
  calculate_batch_similarities ref cands = Ok (map (batch_slot ref) cands).
Proof.
  intros Hne. unfold calculate_batch_similarities.
  destruct cands as [|c cands]; [contradiction|].
  rewrite fold_batch_map; reflexivity.
Qed.

Lemma cosine_invalid_reference (ref c : list F) :
  (ref = [] \/ List.length c <> List.length ref) ->
  exists e, calculate_cosine_similarity ref c = Err e.
Proof.
  intros Hr. unfold calculate_cosine_similarity.
  destruct ref as [|r ref]; [simpl; eauto|].
  destruct Hr as [Hr|Hr]; [discriminate|].
  destruct c as [|x c]; [simpl; eauto|].
  simpl orb. cbv zeta.
  replace (Nat.eqb (List.length (r :: ref)) (List.length (x :: c))) with false
    by (symmetry; apply Nat.eqb_neq; auto).
  simpl; eauto.
Qed.

End EngineFacts.

(** ** C1: the normalization invariant *)

(** The failure sentinel of the batch loop keeps score 0.0 but has
    normalized_score 0.0, not (0.0 + 1.0) / 2.0 = 0.5. *)
Lemma C1_sentinel_breaks_invariant :
  calculate_batch_similarities [fl 1] [[]] = Ok [failed_result] /\
  normalized_score (failed_result (F:=float))
    <> normalize_similarity_score (score failed_result).
Proof.
  split.
  - vm_compute; reflexivity.
  - intros E. apply (f_equal Prim2SF) in E.
    vm_compute in E. discriminate.
Qed.

(** C1 (amended): every result of calculate_similarity satisfies
    normalized_score = clip((raw_score + 1.0) / 2.0, 0.0, 1.0); every slot of
    a batch result is such a result or the "Calculation Failed" sentinel
    (score 0.0, normalized_score 0.0). *)
Theorem C1_normalized_score_invariant {F : Type} `{Num F} :
  (forall (v1 v2 : list F) (r : SimilarityResult F),
      calculate_similarity v1 v2 = Ok r ->
      normalized_score r = normalize_similarity_score (score r)) /\
  (forall (ref : list F) (cands : list (list F)) (rs : list (SimilarityResult F)),
      calculate_batch_similarities ref cands = Ok rs ->
      Forall (fun r => normalized_score r = normalize_similarity_score (score r)
                       \/ r = failed_result) rs).
Proof.
  split.
  - intros v1 v2 r E. apply (calculate_similarity_ok v1 v2 r E).
  - intros ref cands rs E.
    destruct cands as [|c cands']; [discriminate|].
    rewrite batch_map in E by discriminate. inversion E; subst rs.
    apply Forall_forall. intros r Hr. change (In r (map (batch_slot ref) (c :: cands'))) in Hr.
    apply in_map_iff in Hr.
    destruct Hr as [cv [<- _]]. unfold batch_slot.
    destruct (calculate_similarity ref cv) as [res|e] eqn:Ec; [left|right; reflexivity].
    apply (calculate_similarity_ok ref cv res Ec).
Qed.

Lemma C1_witness :
  calculate_similarity [fl 1; fl 2] [fl 2; fl 1] = Ok (batch_slot [fl 1; fl 2] [fl 2; fl 1]) /\
  normalized_score (batch_slot [fl 1; fl 2] [fl 2; fl 1])
  = normalize_similarity_score (score (batch_slot [fl 1; fl 2] [fl 2; fl 1])).
Proof.
  split.
  - vm_compute; reflexivity.
  - apply (proj1 C1_normalized_score_invariant [fl 1; fl 2] [fl 2; fl 1]).
    vm_compute; reflexivity.
Defined.

(** ** C3: batch isolation and order *)

(** C3: for a non-empty candidate list the batch call returns normally with
    one result per candidate, in candidate order; the slot of a candidate whose
    calculation raises is the "Calculation Failed" sentinel, every other slot
    is the result of calculate_similarity for that candidate. *)
Theorem C3_batch_isolation_and_order {F : Type} `{Num F}
  (ref : list F) (cands : list (list F)) :
  cands <> [] ->
  exists rs,
    calculate_batch_similarities ref cands = Ok rs /\
    List.length rs = List.length cands /\
    (forall i c, nth_error cands i = Some c ->
       nth_error rs i = Some (match calculate_similarity ref c with
                              | Ok r => r
                              | Err _ => failed_result
                              end)).
Proof.
  intros Hne. exists (map (batch_slot ref) cands). split; [|split].
  - apply batch_map; exact Hne.
  - apply length_map.
  - intros i c Hc. rewrite nth_error_map, Hc. reflexivity.
Qed.

(** The spec's isolation scenario [valid, malformed, valid]: the middle
    candidate (empty) fails, the others keep their results. *)
Lemma C3_witness :
  calculate_batch_similarities [fl 1; fl 2] [[fl 1; fl 2]; []; [fl 2; fl 1]]
  = Ok (map (batch_slot [fl 1; fl 2]) [[fl 1; fl 2]; []; [fl 2; fl 1]]) /\
  interpretation (batch_slot [fl 1; fl 2] []) = "Calculation Failed" /\
  exists rs,
    calculate_batch_similarities [fl 1; fl 2] [[fl 1; fl 2]; []; [fl 2; fl 1]] = Ok rs /\
    List.length rs = 3%nat /\
    (forall i c, nth_error [[fl 1; fl 2]; []; [fl 2; fl 1]] i = Some c ->
       nth_error rs i = Some (match calculate_similarity [fl 1; fl 2] c with
                              | Ok r => r
                              | Err _ => failed_result
                              end)).
Proof.
  split; [vm_compute; reflexivity|]. split; [vm_compute; reflexivity|].
  apply (C3_batch_isolation_and_order [fl 1; fl 2] [[fl 1; fl 2]; []; [fl 2; fl 1]]).
  discriminate.
Defined.

(** ** C6: validation errors of calculate_cosine_similarity *)

(** C6: an empty input vector raises ValidationError (field "vectors");
    non-empty vectors of different lengths raise ValidationError whose details
    carry both lengths; [1,2] against [1,2,3] carries 2 and 3. *)
Theorem C6_validation_errors {F : Type} `{Num F} :
  (forall v1 v2 : list F, v1 = [] \/ v2 = [] ->
     calculate_cosine_similarity v1 v2
     = Err (ValidationError "Vectors cannot be empty" (Some "vectors") [])) /\
  (forall v1 v2 : list F, v1 <> [] -> v2 <> [] -> List.length v1 <> List.length v2 ->
     exists msg,
       calculate_cosine_similarity v1 v2
       = Err {| err_class := CValidationError;
                err_message := msg;
                err_code := "VALIDATION_ERROR";
                err_details := [("field", PyStr "vector_dimensions");
                                ("vector1_dim", PyInt (List.length v1));
                                ("vector2_dim", PyInt (List.length v2))] |}) /\
  calculate_cosine_similarity (F:=float) [fl 1; fl 2] [fl 1; fl 2; fl 3]
  = Err {| err_class := CValidationError;
           err_message := "Vector dimensions must match: 2 vs 3";
           err_code := "VALIDATION_ERROR";
           err_details := [("field", PyStr "vector_dimensions");
                           ("vector1_dim", PyInt 2); ("vector2_dim", PyInt 3)] |}.
Proof.
  split; [|split].
  - intros v1 v2 [-> | ->]; unfold calculate_cosine_similarity;
      [reflexivity | destruct v1; reflexivity].
  - intros v1 v2 H1 H2 Hl. unfold calculate_cosine_similarity.
    destruct v1 as [|a v1]; [contradiction|]. destruct v2 as [|b v2]; [contradiction|].
    simpl orb. cbv zeta.
    replace (Nat.eqb (List.length (a :: v1)) (List.length (b :: v2))) with false
      by (symmetry; apply Nat.eqb_neq; exact Hl).
    eexists; reflexivity.
  - vm_compute; reflexivity.
Qed.

Lemma C6_witness :
  calculate_cosine_similarity (F:=float) [] [fl 1; fl 2; fl 3]
  = Err (ValidationError "Vectors cannot be empty" (Some "vectors") []) /\
  exists msg,
    calculate_cosine_similarity (F:=float) [fl 1; fl 2] [fl 1; fl 2; fl 3]
    = Err {| err_class := CValidationError;
             err_message := msg;
             err_code := "VALIDATION_ERROR";
             err_details := [("field", PyStr "vector_dimensions");
                             ("vector1_dim", PyInt 2); ("vector2_dim", PyInt 3)] |}.
Proof.
  split.
  - apply (proj1 C6_validation_errors). left; reflexivity.
  - apply (proj1 (proj2 C6_validation_errors) [fl 1; fl 2] [fl 1; fl 2; fl 3]);
      [discriminate | discriminate | simpl; lia].
Defined.

(** ** C9: the batch call and an invalid reference vector *)

(** C9: with a non-empty candidate list the batch call returns normally even
    when the reference vector is empty or mismatches every candidate, and every
    slot is the sentinel; the batch call raises exactly when the candidate list
    is empty. *)
Theorem C9_invalid_reference_swallowed {F : Type} `{Num F} :
  (forall (ref : list F) (cands : list (list F)),
     cands <> [] ->
     (ref = [] \/ Forall (fun c => List.length c <> List.length ref) cands) ->
     calculate_batch_similarities ref cands
     = Ok (repeat failed_result (List.length cands))) /\
  (forall (ref : list F) (cands : list (list F)),
     (exists e, calculate_batch_similarities ref cands = Err e) <-> cands = []).
Proof.
  split.
  - intros ref cands Hne Hr. rewrite batch_map by exact Hne. f_equal.
    assert (Hall : forall c, In c cands -> batch_slot ref c = failed_result).
    { intros c Hc. unfold batch_slot, calculate_similarity, bind.
      destruct (cosine_invalid_reference ref c) as [e ->]; [|reflexivity].
      destruct Hr as [Hr|Hr]; [left; exact Hr|right].
      rewrite Forall_forall in Hr. exact (Hr c Hc). }
    clear Hne Hr. induction cands as [|c cands IH]; [reflexivity|].
    simpl. rewrite (Hall c (or_introl eq_refl)). f_equal.
    apply IH. intros c' Hc'. apply Hall. right; exact Hc'.
  - intros ref cands. split.
    + intros [e He]. destruct cands as [|c cands]; [reflexivity|].
      rewrite batch_map in He by discriminate. discriminate.
    + intros ->. eexists; reflexivity.
Qed.

Lemma C9_witness :
  calculate_batch_similarities (F:=float) [] [[fl 1]; [fl 2; fl 3]]
  = Ok (repeat failed_result 2) /\
  calculate_batch_similarities [fl 1] [[fl 1; fl 2]; [fl 2; fl 3]]
  = Ok (repeat failed_result 2).
Proof.
  split.
  - apply (proj1 C9_invalid_reference_swallowed); [discriminate | left; reflexivity].
  - apply (proj1 C9_invalid_reference_swallowed); [discriminate | right].
    repeat constructor; simpl; lia.
Defined.

(** ** C4 and C10: the interpretation classifier *)

(** Modelled from the spec's tier table (Section 4.4): rows (lower bound n/d,
    label) from highest to lowest, the first row whose bound is at most the
    score wins; the 0.00 row is the default. *)
Definition tier_table : list (Z * Z * string) :=
  [(9%Z, 10%Z, "Very High Similarity");
   (8%Z, 10%Z, "High Similarity");
   (7%Z, 10%Z, "Moderate-High Similarity");
   (6%Z, 10%Z, "Moderate Similarity");
   (5%Z, 10%Z, "Low-Moderate Similarity");
   (3%Z, 10%Z, "Low Similarity")].

Fixpoint first_tier {F : Type} `{Num F} (rows : list (Z * Z * string)) (x : F) : string :=
  match rows with
  | [] => "Very Low Similarity"
  | (n, d, label) :: rows' =>
      if num_leb (num_ratio n d) x then label else first_tier rows' x
  end.

Lemma tier_table_decreasing :
  forall i n1 d1 l1 n2 d2 l2,
    nth_error tier_table i = Some (n1, d1, l1) ->
    nth_error tier_table (S i) = Some (n2, d2, l2) ->
    (n2 * d1 < n1 * d2)%Z.
Proof.
  intros i n1 d1 l1 n2 d2 l2 H1 H2.
  do 6 (destruct i as [|i]; [simpl in H1, H2; inversion H1; inversion H2; subst; lia|]).
  simpl in H2. destruct i; discriminate.
Qed.

(** C4: the classifier is the spec's table evaluated from the highest bound
    down, returning the first match; 0.90 gives "Very High Similarity",
    0.899999 "High Similarity", 0.0 "Very Low Similarity" and 1.0 "Very High
    Similarity" (the literals as float64: n/d correctly rounded). *)
Theorem C4_interpretation_tiers :
  (forall x : float, interpret_similarity_score x = first_tier tier_table x) /\
  interpret_similarity_score (F:=float) (num_ratio 90 100) = "Very High Similarity" /\
  interpret_similarity_score (F:=float) (num_ratio 899999 1000000) = "High Similarity" /\
  interpret_similarity_score (F:=float) (num_ratio 0 1) = "Very Low Similarity" /\
  interpret_similarity_score (F:=float) (num_ratio 1 1) = "Very High Similarity".
Proof.
  split; [intros x; reflexivity|].
  repeat split; vm_compute; reflexivity.
Qed.

Definition sf_positive_finite (f : spec_float) : bool :=
  match f with S754_finite false _ _ => true | _ => false end.

Lemma negative_below_positive (x t : float) :
  PrimFloat.ltb x PrimFloat.zero = true ->
  sf_positive_finite (Prim2SF t) = true ->
  PrimFloat.leb t x = false.
Proof.
  rewrite ltb_spec, leb_spec.
  replace (Prim2SF PrimFloat.zero) with (S754_zero false) by (vm_compute; reflexivity).
  unfold SFltb, SFleb, SFcompare.
  destruct (Prim2SF t) as [st|st| |[] mt et]; try discriminate; intros Hx _.
  destruct (Prim2SF x) as [[]|[]| |[] m e]; try discriminate; reflexivity.
Qed.

Lemma above_one_above_090 (x : float) :
  PrimFloat.ltb PrimFloat.one x = true ->
  PrimFloat.leb (num_ratio 9 10) x = true.
Proof.
  rewrite ltb_spec, leb_spec.
  replace (Prim2SF PrimFloat.one) with (S754_finite false 4503599627370496 (-52))
    by (vm_compute; reflexivity).
  replace (Prim2SF (num_ratio 9 10)) with (S754_finite false 8106479329266893 (-53))
    by (vm_compute; reflexivity).
  unfold SFltb, SFleb, SFcompare.
  destruct (Prim2SF x) as [[]|[]| |[] m e]; try discriminate; try reflexivity.
  intros Hx.
  destruct (Z.compare_spec (-52) e) as [He|He|He].
  - subst e. reflexivity.
  - replace (Z.compare (-53) e) with Lt by (symmetry; apply Z.compare_lt_iff; lia).
    reflexivity.
  - discriminate.
Qed.

(** C10: the classifier returns a label for every float64 input: above 1.0
    it is "Very High Similarity", below 0.0 "Very Low Similarity". *)
Theorem C10_out_of_range_scores :
  (forall x : float, PrimFloat.ltb PrimFloat.one x = true ->
     interpret_similarity_score x = "Very High Similarity") /\
  (forall x : float, PrimFloat.ltb x PrimFloat.zero = true ->
     interpret_similarity_score x = "Very Low Similarity").
Proof.
  split.
  - intros x Hx. unfold interpret_similarity_score.
    change (num_leb (num_ratio 9 10) x) with (PrimFloat.leb (num_ratio 9 10) x).
    rewrite (above_one_above_090 x Hx). reflexivity.
  - intros x Hx. unfold interpret_similarity_score. cbn [num_leb binary64].
    rewrite !(negative_below_positive x) by (exact Hx || (vm_compute; reflexivity)).
    reflexivity.
Qed.

Lemma C10_witness :
  interpret_similarity_score (fl 2) = "Very High Similarity" /\
  interpret_similarity_score (fl (-1)) = "Very Low Similarity".
Proof.
  split.
  - apply (proj1 C10_out_of_range_scores). vm_compute; reflexivity.
  - apply (proj2 C10_out_of_range_scores). vm_compute; reflexivity.
Defined.

(** ** C5: zero vectors *)

(** A vector whose L2 norm is zero: every component is 0.0 or -0.0. *)
Definition zero_norm (v : list float) : Prop :=
  Forall (fun x => x = PrimFloat.zero \/ x = PrimFloat.neg_zero) v.

Lemma zero_norm_allclose (v : list float) : zero_norm v -> allclose_zero v = true.
Proof.
  induction 1 as [|x v Hx _ IH]; [reflexivity|].
  simpl. rewrite IH, andb_true_r.
  destruct Hx as [-> | ->]; vm_compute; reflexivity.
Qed.

(** C5: equal-length non-empty vectors one of which has L2 norm zero give
    exactly 0.0 and no exception; [0,0,0] against [1,2,3] gives raw_score 0.0. *)
Theorem C5_zero_vector_policy :
  (forall v1 v2 : list float,
     v1 <> [] -> List.length v1 = List.length v2 ->
     zero_norm v1 \/ zero_norm v2 ->
     calculate_cosine_similarity v1 v2 = Ok PrimFloat.zero) /\
  raw_score_of (calculate_similarity [fl 0; fl 0; fl 0] [fl 1; fl 2; fl 3])
  = Some PrimFloat.zero.
Proof.
  split; [|vm_compute; reflexivity].
  intros v1 v2 Hne Hl Hz.
  destruct v1 as [|a v1]; [contradiction|].
  destruct v2 as [|b v2]; [discriminate|].
  assert (Hall : allclose_zero (a :: v1) || allclose_zero (b :: v2) = true)
    by (destruct Hz as [Hz|Hz]; rewrite (zero_norm_allclose _ Hz);
        [reflexivity | apply orb_true_r]).
  unfold calculate_cosine_similarity. rewrite Hall, Hl, Nat.eqb_refl.
  reflexivity.
Qed.

Lemma C5_witness :
  calculate_cosine_similarity [fl 0; fl 0; fl 0] [fl 1; fl 2; fl 3] = Ok PrimFloat.zero.
Proof.
  apply (proj1 C5_zero_vector_policy); [discriminate | reflexivity | left].
  repeat constructor; left; vm_compute; reflexivity.
Defined.

(** ** C7: ranges of the returned scores *)

Lemma in_unit_range_finite (c : float) :
  PrimFloat.leb (PrimFloat.opp PrimFloat.one) c = true ->
  PrimFloat.leb c PrimFloat.one = true ->
  sf_is_finite (Prim2SF c) = true.
Proof.
  rewrite !leb_spec.
  replace (Prim2SF (PrimFloat.opp PrimFloat.one))
    with (S754_finite true 4503599627370496 (-52)) by (vm_compute; reflexivity).
  replace (Prim2SF PrimFloat.one)
    with (S754_finite false 4503599627370496 (-52)) by (vm_compute; reflexivity).
  unfold SFleb, SFcompare.
  destruct (Prim2SF c) as [[]|[]| |[] m e]; intros H1 H2; try reflexivity;
    first [discriminate H1 | discriminate H2].
Qed.

Lemma raw_score_range (c : float) (v1 v2 : list float) :
  calculate_cosine_similarity v1 v2 = Ok c ->
  PrimFloat.leb (PrimFloat.opp PrimFloat.one) c = true /\
  PrimFloat.leb c PrimFloat.one = true.
Proof.
  intros E. destruct (cosine_ok_cases v1 v2 c E) as [-> | [s [Hs ->]]].
  - split; vm_compute; reflexivity.
  - replace (PrimFloat.opp PrimFloat.one) with (fm1 (F:=float)) by (vm_compute; reflexivity).
    replace PrimFloat.one with (f1 (F:=float)) by (vm_compute; reflexivity).
    apply np_clip_bounds_f; [exact Hs | vm_compute; reflexivity ..].
Qed.

Lemma normalized_range (c : float) :
  PrimFloat.leb (PrimFloat.opp PrimFloat.one) c = true ->
  PrimFloat.leb c PrimFloat.one = true ->
  PrimFloat.leb PrimFloat.zero (normalize_similarity_score c) = true /\
  PrimFloat.leb (normalize_similarity_score c) PrimFloat.one = true.
Proof.
  intros Hlo Hhi. pose proof (in_unit_range_finite c Hlo Hhi) as Hc.
  unfold normalize_similarity_score. cbv zeta.
  replace PrimFloat.zero with (f0 (F:=float)) by (vm_compute; reflexivity).
  replace PrimFloat.one with (f1 (F:=float)) by (vm_compute; reflexivity).
  apply np_clip_bounds_f; [| vm_compute; reflexivity ..].
  change (PrimFloat.is_nan (PrimFloat.div (PrimFloat.add c f1) f2) = false).
  apply (div_finite_not_nan _ _ false 4503599627370496 (-51));
    [| vm_compute; reflexivity].
  apply add_finite_not_nan; [exact Hc | vm_compute; reflexivity].
Qed.

(** C7: whenever calculate_similarity returns, raw_score lies in
    [-1.0, 1.0] and normalized_score in [0.0, 1.0] (float64 comparisons). *)
Theorem C7_result_ranges (v1 v2 : list float) (r : SimilarityResult float) :
  calculate_similarity v1 v2 = Ok r ->
  (PrimFloat.leb (PrimFloat.opp PrimFloat.one) (score r)
   && PrimFloat.leb (score r) PrimFloat.one) = true /\
  (PrimFloat.leb PrimFloat.zero (normalized_score r)
   && PrimFloat.leb (normalized_score r) PrimFloat.one) = true.
Proof.
  intros E. destruct (calculate_similarity_ok v1 v2 r E) as [Ec [Hn _]].
  destruct (raw_score_range (score r) v1 v2 Ec) as [Hlo Hhi].
  rewrite Hn. destruct (normalized_range (score r) Hlo Hhi) as [Hnlo Hnhi].
  rewrite Hlo, Hhi, Hnlo, Hnhi. split; reflexivity.
Qed.

Lemma C7_witness :
  (PrimFloat.leb (PrimFloat.opp PrimFloat.one) (score (batch_slot [fl 1; fl 2] [fl (-2); fl 1]))
   && PrimFloat.leb (score (batch_slot [fl 1; fl 2] [fl (-2); fl 1])) PrimFloat.one) = true /\
  (PrimFloat.leb PrimFloat.zero (normalized_score (batch_slot [fl 1; fl 2] [fl (-2); fl 1]))
   && PrimFloat.leb (normalized_score (batch_slot [fl 1; fl 2] [fl (-2); fl 1])) PrimFloat.one)
  = true.
Proof.
  apply (C7_result_ranges [fl 1; fl 2] [fl (-2); fl 1]).
  vm_compute; reflexivity.
Defined.

(** ** C8: symmetry *)

Lemma dot_acc_comm_f (acc : float) (u v : list float) :
  dot_acc acc u v = dot_acc acc v u.
Proof.
  revert acc v; induction u as [|a u IH]; intros acc v; destruct v as [|b v];
    try reflexivity.
  simpl. rewrite (mul_comm_f a b). apply IH.
Qed.

Lemma scipy_cosine_comm_f (u v : list float) : scipy_cosine u v = scipy_cosine v u.
Proof.
  unfold scipy_cosine, np_dot.
  rewrite (dot_acc_comm_f f0 u v).
  change (@num_mul float binary64) with PrimFloat.mul.
  rewrite (mul_comm_f (dot_acc f0 u u) (dot_acc f0 v v)).
  reflexivity.
Qed.

Lemma cosine_comm_f (v1 v2 : list float) :
  List.length v1 = List.length v2 ->
  calculate_cosine_similarity v1 v2 = calculate_cosine_similarity v2 v1.
Proof.
  intros Hl. unfold calculate_cosine_similarity.
  destruct v1 as [|a v1], v2 as [|b v2]; try reflexivity.
  rewrite Hl, (orb_comm (allclose_zero (a :: v1))), scipy_cosine_comm_f.
  reflexivity.
Qed.

(** C8: for equal-length non-empty vectors, calculate_similarity(v1, v2) and
    calculate_similarity(v2, v1) have the same raw_score. *)
Theorem C8_symmetry (v1 v2 : list float) :
  v1 <> [] -> v2 <> [] -> List.length v1 = List.length v2 ->
  raw_score_of (calculate_similarity v1 v2) = raw_score_of (calculate_similarity v2 v1).
Proof.
  intros _ _ Hl. rewrite !raw_score_of_calculate_similarity, (cosine_comm_f v1 v2 Hl).
  reflexivity.
Qed.

Lemma C8_witness :
  raw_score_of (calculate_similarity [fl 1; fl 2; fl 3] [fl 4; fl (-5); fl 6])
  = raw_score_of (calculate_similarity [fl 4; fl (-5); fl 6] [fl 1; fl 2; fl 3]).
Proof.
  apply C8_symmetry; [discriminate | discriminate | reflexivity].
Defined.

(** ** C2: self-comparison *)

Lemma sub_zero_f (x : float) : PrimFloat.sub x PrimFloat.zero = x.
Proof.
  apply Prim2SF_inj. rewrite sub_spec.
  replace (Prim2SF PrimFloat.zero) with (S754_zero false) by (vm_compute; reflexivity).
  unfold SF64sub, SFsub. destruct (Prim2SF x) as [[]|[]| |[] m e]; reflexivity.
Qed.

(** [np.isclose(x, 0)] on float64 is [abs(x) <= 1e-08]. *)
Lemma isclose_zero_f (x : float) :
  isclose_zero x = PrimFloat.leb (PrimFloat.abs x) (num_ratio 1 100000000).
Proof.
  unfold isclose_zero.
  change (@num_sub float binary64 x f0) with (PrimFloat.sub x PrimFloat.zero).
  rewrite sub_zero_f. reflexivity.
Qed.

Lemma isclose_zero_R (x : R) :
  isclose_zero x = Rleb (Rabs x) (1 / 100000000)%R.
Proof.
  unfold isclose_zero, f0.
  change (Rleb (Rabs (x - 0 / 1)) (1 / 100000000 + 1 / 100000 * Rabs (0 / 1))
          = Rleb (Rabs x) (1 / 100000000))%R.
  replace (0 / 1)%R with 0%R by (unfold Rdiv; ring).
  rewrite Rminus_0_r, Rabs_R0, Rmult_0_r, Rplus_0_r. reflexivity.
Qed.

Lemma np_clip_R_inside (x lo hi : R) :
  (lo <= x <= hi)%R -> np_clip x lo hi = x.
Proof.
  intros Hx. unfold np_clip.
  change (num_isnan x) with false. cbv iota beta.
  change (@num_ltb R exact_reals) with Rltb. unfold Rltb.
  destruct (Rlt_dec lo x) as [H1|H1].
  - change (num_isnan x) with false. cbv iota beta.
    destruct (Rlt_dec x hi); [reflexivity | lra].
  - change (num_isnan lo) with false. cbv iota beta.
    destruct (Rlt_dec lo hi); lra.
Qed.

Lemma dot_acc_self_ge_R (v : list R) (acc : R) : (acc <= dot_acc acc v v)%R.
Proof.
  revert acc; induction v as [|a v IH]; intros acc; simpl; [lra|].
  apply (Rle_trans _ (acc + a * a)); [|apply IH].
  pose proof (Rle_0_sqr a). unfold Rsqr in *. lra.
Qed.

Lemma dot_acc_self_pos_R (v : list R) (acc : R) :
  (0 <= acc)%R -> Exists (fun x => (Rabs x > 1 / 100000000)%R) v ->
  (0 < dot_acc acc v v)%R.
Proof.
  intros Hacc Hv. revert acc Hacc.
  induction Hv as [a v Ha|a v _ IH]; intros acc Hacc; simpl.
  - assert (Hna : a <> 0%R) by (intros ->; rewrite Rabs_R0 in Ha; lra).
    pose proof (Rsqr_pos_lt a Hna). unfold Rsqr in *.
    apply (Rlt_le_trans _ (acc + a * a)); [lra | apply dot_acc_self_ge_R].
  - apply IH. pose proof (Rle_0_sqr a). unfold Rsqr in *. lra.
Qed.

Lemma self_similarity_exact (v : list R) :
  Exists (fun x => (Rabs x > 1 / 100000000)%R) v ->
  calculate_cosine_similarity v v = Ok 1%R.
Proof.
  intros Hv.
  assert (Hall : allclose_zero v = false).
  { induction Hv as [x v Hx|x v _ IH].
    - change (isclose_zero x && allclose_zero v = false).
      rewrite isclose_zero_R. unfold Rleb.
      destruct (Rle_dec _ _); [lra | reflexivity].
    - change (isclose_zero x && allclose_zero v = false).
      rewrite IH, andb_false_r. reflexivity. }
  assert (Hpos : (0 < np_dot v v)%R).
  { apply dot_acc_self_pos_R; [|exact Hv].
    change (0 <= 0 / 1)%R. unfold Rdiv; lra. }
  unfold calculate_cosine_similarity.
  replace (match v with [] => true | _ => false end) with false
    by (destruct Hv; reflexivity).
  rewrite Nat.eqb_refl, Hall. cbn [orb negb].
  unfold scipy_cosine, math_sqrt, bind. cbv zeta.
  set (u := np_dot v v) in *. clearbody u.
  change (num_ltb (num_mul u u) f0) with (Rltb (u * u) (0 / 1))%R.
  assert (Hnn : Rltb (u * u) (0 / 1) = false).
  { unfold Rltb. destruct (Rlt_dec _ _) as [r|r]; [|reflexivity].
    exfalso. unfold Rdiv in r. rewrite Rmult_0_l in r.
    pose proof (Rle_0_sqr u). unfold Rsqr in *. lra. }
  rewrite Hnn. cbv iota beta.
  change (num_sqrt (num_mul u u)) with (R_sqrt.sqrt (u * u)).
  rewrite sqrt_square by lra.
  change (num_sub f1 (num_div u u)) with (1 / 1 - u / u)%R.
  replace (1 / 1 - u / u)%R with 0%R by (field; lra).
  rewrite (np_clip_R_inside 0 f0 f2)
    by (change (0 / 1 <= 0 <= 2 / 1)%R; unfold Rdiv; lra).
  change (num_isnan (num_sub f1 0%R)) with false. cbv iota beta.
  rewrite np_clip_R_inside
    by (change (-1 / 1 <= 1 / 1 - 0 <= 1 / 1)%R; unfold Rdiv; lra).
  change (num_sub f1 0%R) with (1 / 1 - 0)%R.
  f_equal. field.
Qed.

Lemma allclose_self_similarity {F : Type} `{Num F} (v : list F) :
  v <> [] -> allclose_zero v = true -> calculate_cosine_similarity v v = Ok f0.
Proof.
  intros Hne Hall. unfold calculate_cosine_similarity.
  replace (match v with [] => true | _ => false end) with false
    by (destruct v; [contradiction | reflexivity]).
  rewrite Nat.eqb_refl, Hall. reflexivity.
Qed.

(** [1e-9] (correctly rounded) and [2^600]: non-zero vectors. *)
Definition tiny_vector : list float := [num_ratio 1 1000000000].
Definition huge_vector : list float := [0x1p600%float].

(** Both vectors compared with themselves give raw_score 0.0: the first is
    allclose to zero, for the second uu * vv overflows, the quotient is NaN and
    the NaN guard returns 0.0. *)
Lemma C2_nonzero_self_similarity_zero :
  Exists (fun x => PrimFloat.is_zero x = false) tiny_vector /\
  raw_score_of (calculate_similarity tiny_vector tiny_vector) = Some PrimFloat.zero /\
  Exists (fun x => PrimFloat.is_zero x = false) huge_vector /\
  raw_score_of (calculate_similarity huge_vector huge_vector) = Some PrimFloat.zero.
Proof.
  repeat split; try (constructor; vm_compute; reflexivity); vm_compute; reflexivity.
Qed.

(** C2 (amended): a vector with some component of magnitude above 1e-8
    compared with itself has raw_score exactly 1.0 in exact arithmetic; in
    float64 a non-empty vector whose components all have magnitude at most
    1e-8 compared with itself has raw_score exactly 0.0, and so has [2^600],
    whose squared norm overflows. *)
Theorem C2_self_similarity_amended :
  (forall v : list R, Exists (fun x => (Rabs x > 1 / 100000000)%R) v ->
     raw_score_of (calculate_similarity v v) = Some 1%R) /\
  (forall v : list float, v <> [] ->
     Forall (fun x => PrimFloat.leb (PrimFloat.abs x) (num_ratio 1 100000000) = true) v ->
     raw_score_of (calculate_similarity v v) = Some PrimFloat.zero) /\
  raw_score_of (calculate_similarity huge_vector huge_vector) = Some PrimFloat.zero.
Proof.
  split; [|split; [|vm_compute; reflexivity]].
  - intros v Hv. rewrite raw_score_of_calculate_similarity, self_similarity_exact by exact Hv.
    reflexivity.
  - intros v Hne Hsmall. rewrite raw_score_of_calculate_similarity.
    rewrite allclose_self_similarity; [vm_compute; reflexivity | exact Hne |].
    induction Hsmall as [|x v Hx _ IH]; [reflexivity|].
    change (isclose_zero x && allclose_zero v = true).
    rewrite isclose_zero_f, Hx. destruct v as [|y v]; [reflexivity|].
    apply IH. discriminate.
Qed.

Lemma C2_witness :
  raw_score_of (calculate_similarity [1%R; 2%R] [1%R; 2%R]) = Some 1%R /\
  raw_score_of (calculate_similarity tiny_vector tiny_vector) = Some PrimFloat.zero.
Proof.
  split.
  - apply (proj1 C2_self_similarity_amended). constructor.
    rewrite Rabs_R1. lra.
  - apply (proj1 (proj2 C2_self_similarity_amended)); [discriminate|].
    constructor; [vm_compute; reflexivity | constructor].
Defined.

(** * Exceptions, error handlers, embedding service, endpoint and validation
    (app/core, app/services/embedding_service.py, app/api/v1/endpoints) *)

Module Exceptions.

(** Values stored in a [details] dict. *)
Inductive PyObj :=
| ONone
| OInt (z : Z)
| OStr (s : string).

(** A dict in insertion order. [None] and [{}] passed as [details] behave
    alike in every constructor ([details or {}], [if details:]), so both are
    the empty list. *)
Definition Dict := list (string * PyObj).

Fixpoint dict_set (d : Dict) (k : string) (v : PyObj) : Dict :=
  match d with
  | [] => [(k, v)]
  | (k', v') :: d' =>
      if String.eqb k k' then (k, v) :: d' else (k', v') :: dict_set d' k v
  end.

Definition dict_update (d e : Dict) : Dict :=
  fold_left (fun acc kv => dict_set acc (fst kv) (snd kv)) e d.

(** [d.get(k)] *)
Fixpoint dict_get (d : Dict) (k : string) : option PyObj :=
  match d with
  | [] => None
  | (k', v) :: d' => if String.eqb k k' then Some v else dict_get d' k
  end.

(** [if details: d.update(details)] *)
Definition update_if (d details : Dict) : Dict :=
  match details with [] => d | _ => dict_update d details end.

(** [str(n)] for an int *)
Definition py_str_Z (z : Z) : string :=
  match z with
  | Zneg p => "-" ++ py_str_int (Pos.to_nat p)
  | _ => py_str_int (Z.to_nat z)
  end.

Inductive ExcType :=
| TSpeechSimilarityAPIError
| TDatabaseError | TDatabaseConnectionError | TDatabaseTimeoutError
| TSessionError | TSessionNotFoundError | TSessionValidationError
| TAudioError | TAudioValidationError | TAudioProcessingError | TTranscriptionError
| TExternalServiceError | TOpenAIServiceError | TEmbeddingError | TWhisperError
| TRateLimitError
| TProcessingError | TSimilarityError
| TValidationError
| TConfigurationError.

(** An instance: [type(exc)], [exc.message], [exc.error_code], [exc.details]. *)
Record PyExc := {
  exc_type : ExcType;
  exc_message : string;
  exc_code : string;
  exc_details : Dict
}.

(** [SpeechSimilarityAPIError.__init__] run on an instance of class [self]. *)
Definition SpeechSimilarityAPIError_init (self : ExcType) (message error_code : string)
  (details : Dict) : PyExc :=
  {| exc_type := self; exc_message := message; exc_code := error_code;
     exc_details := details |}.

(** [self.error_code = code] after [super().__init__]. *)
Definition set_error_code (e : PyExc) (code : string) : PyExc :=
  {| exc_type := exc_type e; exc_message := exc_message e; exc_code := code;
     exc_details := exc_details e |}.

Definition default_str (d : string) (o : option string) : string :=
  match o with Some s => s | None => d end.

Definition SpeechSimilarityAPIError (message : string) (error_code : option string)
  (details : Dict) : PyExc :=
  SpeechSimilarityAPIError_init TSpeechSimilarityAPIError message
    (default_str "UNKNOWN_ERROR" error_code) details.

Definition DatabaseError_init (self : ExcType) (message : string) (details : Dict) : PyExc :=
  SpeechSimilarityAPIError_init self message "DATABASE_ERROR" details.

Definition DatabaseError (message : string) (details : Dict) : PyExc :=
  DatabaseError_init TDatabaseError message details.

Definition DatabaseConnectionError (message : option string) (details : Dict) : PyExc :=
  set_error_code
    (DatabaseError_init TDatabaseConnectionError
       (default_str "Database connection failed" message) details)
    "DATABASE_CONNECTION_ERROR".

Definition DatabaseTimeoutError (message : option string) (details : Dict) : PyExc :=
  set_error_code
    (DatabaseError_init TDatabaseTimeoutError
       (default_str "Database operation timed out" message) details)
    "DATABASE_TIMEOUT_ERROR".

Definition SessionError_init (self : ExcType) (message error_code : string)
  (details : Dict) : PyExc :=
  SpeechSimilarityAPIError_init self message error_code details.

Definition SessionError (message : string) (error_code : option string)
  (details : Dict) : PyExc :=
  SessionError_init TSessionError message (default_str "SESSION_ERROR" error_code) details.

Definition SessionNotFoundError (session_id : Z) (details : Dict) : PyExc :=
  let message := "Session with ID " ++ py_str_Z session_id ++ " was not found" in
  let session_details := update_if [("session_id", OInt session_id)] details in
  SessionError_init TSessionNotFoundError message "SESSION_NOT_FOUND" session_details.

Definition SessionValidationError (message : string) (details : Dict) : PyExc :=
  SessionError_init TSessionValidationError message "SESSION_VALIDATION_ERROR" details.

Definition AudioError_init (self : ExcType) (message error_code : string)
  (details : Dict) : PyExc :=
  SpeechSimilarityAPIError_init self message error_code details.

Definition AudioError (message : string) (error_code : option string)
  (details : Dict) : PyExc :=
  AudioError_init TAudioError message (default_str "AUDIO_ERROR" error_code) details.

Definition AudioValidationError (message : string) (details : Dict) : PyExc :=
  AudioError_init TAudioValidationError message "INVALID_AUDIO_DATA" details.

Definition AudioProcessingError (message : string) (details : Dict) : PyExc :=
  AudioError_init TAudioProcessingError message "AUDIO_PROCESSING_ERROR" details.

Definition TranscriptionError (message : string) (details : Dict) : PyExc :=
  AudioError_init TTranscriptionError message "TRANSCRIPTION_SERVICE_ERROR" details.

Definition ExternalServiceError_init (self : ExcType) (message service_name error_code : string)
  (details : Dict) : PyExc :=
  let service_details := update_if [("service", OStr service_name)] details in
  SpeechSimilarityAPIError_init self message error_code service_details.

Definition ExternalServiceError (message service_name : string) (error_code : option string)
  (details : Dict) : PyExc :=
  ExternalServiceError_init TExternalServiceError message service_name
    (default_str "EXTERNAL_SERVICE_ERROR" error_code) details.

Definition OpenAIServiceError_init (self : ExcType) (message operation : string)
  (details : Dict) : PyExc :=
  let operation_details := update_if [("operation", OStr operation)] details in
  ExternalServiceError_init self message "openai" "OPENAI_SERVICE_ERROR" operation_details.

Definition OpenAIServiceError (message operation : string) (details : Dict) : PyExc :=
  OpenAIServiceError_init TOpenAIServiceError message operation details.

Definition EmbeddingError (message : string) (details : Dict) : PyExc :=
  set_error_code
    (OpenAIServiceError_init TEmbeddingError message "embedding_generation" details)
    "EMBEDDING_SERVICE_ERROR".


(** [RateLimitError(service_name, retry_after=None, details=None)]; an int is
    truthy when non-zero. *)
Definition RateLimitError (service_name : string) (retry_after : option Z)
  (details : Dict) : PyExc :=
  let message := "Rate limit exceeded for " ++ service_name in
  let message :=
    match retry_after with
    | Some n => if Z.eqb n 0 then message
                else message ++ ". Retry after " ++ py_str_Z n ++ " seconds"
    | None => message
    end in
  let rate_limit_details :=
    update_if [("retry_after", match retry_after with Some n => OInt n | None => ONone end)]
      details in
  ExternalServiceError_init TRateLimitError message service_name "RATE_LIMIT_EXCEEDED"
    rate_limit_details.

Definition ProcessingError_init (self : ExcType) (message error_code : string)
  (details : Dict) : PyExc :=
  SpeechSimilarityAPIError_init self message error_code details.

Definition ProcessingError (message : string) (error_code : option string)
  (details : Dict) : PyExc :=
  ProcessingError_init TProcessingError message (default_str "PROCESSING_ERROR" error_code)
    details.

Definition SimilarityError (message : string) (details : Dict) : PyExc :=
  ProcessingError_init TSimilarityError message "SIMILARITY_CALCULATION_ERROR" details.

(** [if field:] is false for [None] and for the empty string. *)
Definition ValidationError (message : string) (field : option string) (details : Dict) : PyExc :=
  let validation_details :=
    match field with
    | Some f => if String.eqb f "" then [] else [("field", OStr f)]
    | None => []
    end in
  let validation_details := update_if validation_details details in
  SpeechSimilarityAPIError_init TValidationError message "VALIDATION_ERROR" validation_details.

Definition ConfigurationError (message : string) (config_key : option string)
  (details : Dict) : PyExc :=
  let config_details :=
    match config_key with
    | Some k => if String.eqb k "" then [] else [("config_key", OStr k)]
    | None => []
    end in
  let config_details := update_if config_details details in
  SpeechSimilarityAPIError_init TConfigurationError message "CONFIGURATION_ERROR" config_details.

(** A raised exception: one of the classes above, or a built-in one given by
    its class name and [str(e)]. *)
Inductive Raised :=
| RApi (e : PyExc)
| RBuiltin (type_name : string) (str_e : string).

Definition str_raised (r : Raised) : string :=
  match r with RApi e => exc_message e | RBuiltin _ s => s end.

Inductive PyResult (A : Type) :=
| POk (a : A)
| PRaise (r : Raised).
Arguments POk {A} a.
Arguments PRaise {A} r.

(** The exception classes of the engine's model, as instances of the hierarchy. *)
Definition of_pyvalue (v : PyValue) : PyObj :=
  match v with PyStr s => OStr s | PyInt n => OInt (Z.of_nat n) end.

Definition of_api_error (e : ApiError) : PyExc :=
  {| exc_type := match err_class e with
                 | CValidationError => TValidationError
                 | CSimilarityError => TSimilarityError
                 end;
     exc_message := err_message e;
     exc_code := err_code e;
     exc_details := map (fun kv => (fst kv, of_pyvalue (snd kv))) (err_details e) |}.

End Exceptions.

(** ** Error responses (app/core/exception_handlers.py) *)

Module Handlers.
Import Exceptions.

(** [status_code_mapping.get(type(exc), 500)]: the exact class is looked up. *)
Definition status_code_mapping (t : ExcType) : option Z :=
  match t with
  | TDatabaseError | TDatabaseConnectionError | TDatabaseTimeoutError => Some 503%Z
  | TSessionNotFoundError => Some 404%Z
  | TSessionValidationError => Some 422%Z
  | TAudioValidationError => Some 422%Z
  | TAudioProcessingError | TTranscriptionError => Some 502%Z
  | TExternalServiceError | TOpenAIServiceError | TEmbeddingError | TWhisperError => Some 502%Z
  | TRateLimitError => Some 429%Z
  | TSimilarityError => Some 500%Z
  | TValidationError => Some 422%Z
  | TConfigurationError => Some 500%Z
  | _ => None
  end.

(** The body of [create_error_response] without its [timestamp] and
    [request_id], and the status code. *)
Record ErrorResponse := {
  status_code : Z;
  resp_error_code : string;
  resp_message : string;
  resp_details : Dict
}.

Definition speech_similarity_api_exception_handler (exc : PyExc) : ErrorResponse :=
  let status := match status_code_mapping (exc_type exc) with Some s => s | None => 500%Z end in
  {| status_code := status; resp_error_code := exc_code exc;
     resp_message := exc_message exc; resp_details := exc_details exc |}.

Definition generic_exception_handler (type_name : string) : ErrorResponse :=
  {| status_code := 500%Z; resp_error_code := "INTERNAL_SERVER_ERROR";
     resp_message := "An unexpected error occurred";
     resp_details := [("exception_type", OStr type_name)] |}.

(** The handler the application registers for a raised exception
    ([SpeechSimilarityAPIError] subclasses, else [Exception]). *)
Definition handle (r : Raised) : ErrorResponse :=
  match r with
  | RApi e => speech_similarity_api_exception_handler e
  | RBuiltin type_name _ => generic_exception_handler type_name
  end.

End Handlers.

(** ** Python strings *)

(** A [str] is modelled by a Rocq string whose characters are its code
    points; this covers strings of code points below 256. *)

(** [str.isspace] on one character (code points below 256). *)
Definition py_isspace (c : ascii) : bool :=
  let n := nat_of_ascii c in
  (((9 <=? n) && (n <=? 13)) || ((28 <=? n) && (n <=? 32)) || (n =? 133) || (n =? 160))%nat.

Fixpoint py_lstrip (s : string) : string :=
  match s with
  | EmptyString => EmptyString
  | String c s' => if py_isspace c then py_lstrip s' else s
  end.

Fixpoint py_rstrip (s : string) : string :=
  match s with
  | EmptyString => EmptyString
  | String c s' =>
      let r := py_rstrip s' in
      if String.eqb r "" && py_isspace c then "" else String c r
  end.

(** [str.strip()] *)
Definition py_strip (s : string) : string := py_rstrip (py_lstrip s).

(** [str.lower()] on code points below 256. *)
Definition py_lower_char (c : ascii) : ascii :=
  let n := nat_of_ascii c in
  if (((65 <=? n) && (n <=? 90)) || ((192 <=? n) && (n <=? 222) && negb (n =? 215)))%nat
  then ascii_of_nat (n + 32)%nat else c.

Fixpoint py_lower (s : string) : string :=
  match s with
  | EmptyString => EmptyString
  | String c s' => String (py_lower_char c) (py_lower s')
  end.

(** [sub in s] *)
Fixpoint py_contains (sub s : string) : bool :=
  String.prefix sub s ||
  match s with EmptyString => false | String _ s' => py_contains sub s' end.

(** ** Embedding service (app/services/embedding_service.py) *)

Module Embedding.
Import Exceptions.

Record EmbeddingResult := {
  vector : list float;
  model : string;
  usage_tokens : Z
}.

(** The [input] of [client.embeddings.create]: one text or a list. *)
Inductive EmbeddingsInput :=
| InputOne (text : string)
| InputMany (texts : list string).

(** [response.data[i].embedding] and [response.usage.total_tokens]. *)
Record CreateEmbeddingResponse := {
  data : list (list float);
  total_tokens : Z
}.

(** [self.model], [self.max_tokens] as set by [__init__]. *)
Definition model_name : string := "text-embedding-ada-002".
#[warnings="-abstract-large-number"]
Definition max_tokens : nat := 8191%nat.

(** [not text or not text.strip()] *)
Definition is_blank (text : string) : bool :=
  String.eqb text "" || String.eqb (py_strip text) "".

(** [if len(text) > self.max_tokens * 4: text = text[:self.max_tokens * 4]] *)
Definition truncate (text : string) : string :=
  if Nat.ltb (max_tokens * 4)%nat (String.length text)
  then substring 0 (max_tokens * 4)%nat text else text.

(** The [except Exception as e] clause of both methods. *)
Definition api_error (rate_limit_operation operation : string) (e : Raised) : Raised :=
  let s := str_raised e in
  if py_contains "rate_limit" (py_lower s) || py_contains "429" s then
    RApi (RateLimitError "openai" None [("operation", OStr rate_limit_operation)])
  else
    RApi (EmbeddingError ("OpenAI embeddings API error: " ++ s)
            [("operation", OStr operation)]).

Section Service.

(** [await self.client.embeddings.create(model=..., input=..., encoding_format="float")]:
    the remote API, returning a response or raising. *)
Variable embeddings_create : EmbeddingsInput -> PyResult CreateEmbeddingResponse.

(** [EmbeddingService.get_embedding] *)
Definition get_embedding (text : string) : PyResult EmbeddingResult :=
  if is_blank text then
    PRaise (RApi (ValidationError "Text cannot be empty" (Some "text") []))
  else
    let text := truncate text in
    (* try: *)
    match embeddings_create (InputOne text) with
    | PRaise e => PRaise (api_error "embedding_generation" "single_embedding" e)
    | POk response =>
        match data response with
        | [] => (* response.data[0] raises IndexError inside the try *)
            PRaise (api_error "embedding_generation" "single_embedding"
                      (RBuiltin "IndexError" "list index out of range"))
        | embedding_data :: _ =>
            POk {| vector := embedding_data; model := model_name;
                   usage_tokens := total_tokens response |}
        end
    end.

(** [EmbeddingService.get_embeddings_batch] *)
Definition get_embeddings_batch (texts : list string) : PyResult (list EmbeddingResult) :=
  match texts with
  | [] => PRaise (RApi (ValidationError "Texts list cannot be empty" (Some "texts") []))
  | _ =>
      let valid_texts :=
        fold_left (fun valid_texts text =>
                     if is_blank text then valid_texts
                     else (valid_texts ++ [truncate text])%list)
          texts [] in
      match valid_texts with
      | [] => PRaise (RApi (ValidationError "No valid texts found after filtering"
                              (Some "texts") []))
      | _ =>
          (* try: *)
          match embeddings_create (InputMany valid_texts) with
          | PRaise e => PRaise (api_error "batch_embedding_generation" "batch_embeddings" e)
          | POk response =>
              POk (fold_left (fun results embedding_data =>
                     (results ++
                      [{| vector := embedding_data; model := model_name;
                          usage_tokens := Z.div (total_tokens response)
                                            (Z.of_nat (List.length (data response))) |}])%list)
                   (data response) [])
          end
      end
  end.

End Service.

End Embedding.

(** ** The similarity endpoint (app/api/v1/endpoints/similarity.py) *)

Module Endpoint.
Import Exceptions Embedding.

(** Steps 3 and 4 of [calculate_similarity] (the endpoint): embeddings of the
    transcription and of the reference text, then the engine. The session
    lookup and the transcription (steps 1 and 2) supply [transcribed_text];
    the response fields other than [similarity_score] are not modelled. *)
Definition endpoint_similarity_score
  (embeddings_create : EmbeddingsInput -> PyResult CreateEmbeddingResponse)
  (transcribed_text reference_text : string) : PyResult float :=
  (* try: ... except Exception: raise *)
  match get_embeddings_batch embeddings_create [transcribed_text; reference_text] with
  | PRaise e => PRaise e
  | POk embedding_results =>
      match nth_error embedding_results 0 with
      | None => PRaise (RBuiltin "IndexError" "list index out of range")
      | Some transcribed_embedding =>
          match nth_error embedding_results 1 with
          | None => PRaise (RBuiltin "IndexError" "list index out of range")
          | Some reference_embedding =>
              match calculate_similarity (vector transcribed_embedding)
                      (vector reference_embedding) with
              | Ok similarity_result => POk (normalized_score similarity_result)
              | Err e => PRaise (RApi (of_api_error e))
              end
          end
      end
  end.

End Endpoint.

(** ** Validation utilities (app/core/validation.py) *)

Module Validation.
Import Exceptions.

(** The parameters of [ValidationError.__init__] (besides [self]). *)
Definition ValidationError_params : list string := ["message"; "field"; "details"].

Fixpoint first_unexpected (params kws : list string) : option string :=
  match kws with
  | [] => None
  | k :: kws' =>
      if existsb (String.eqb k) params then first_unexpected params kws' else Some k
  end.

(** [raise CustomValidationError(k1=..., k2=..., ...)] with keyword arguments
    named [kws]: Python rejects the call when a keyword names no parameter. *)
Definition raise_ValidationError_kw (kws : list string) (message : string)
  (field : option string) (details : Dict) : Raised :=
  match first_unexpected ValidationError_params kws with
  | Some k =>
      RBuiltin "TypeError"
        ("ValidationError.__init__() got an unexpected keyword argument '" ++ k ++ "'")
  | None => RApi (ValidationError message field details)
  end.

(** [validate_similarity_score(score)] on a float ([isinstance] holds). *)
Definition validate_similarity_score (score : float) : PyResult unit :=
  if negb (PrimFloat.leb (num_ratio 0 1) score && PrimFloat.leb score (num_ratio 1 1)) then
    PRaise (raise_ValidationError_kw ["error_code"; "message"; "details"]
              "Similarity score must be between 0.0 and 1.0" None
              [("score", OStr "<float>"); ("min", OStr "0.0"); ("max", OStr "1.0")])
  else POk tt.


(** [RequestValidationMiddleware.dispatch], its size check: [content_length]
    is the [content-length] header if present, [py_int] stands for [int()],
    [call_next] for the rest of the application. The content-type check only
    logs; [X-Validation-Status] depends on [request.state.validation_passed],
    which no code in the application sets. *)
Definition dispatch {Response : Type} (max_request_size : Z)
  (py_int : string -> PyResult Z) (content_length : option string)
  (call_next : PyResult Response) : PyResult Response :=
  (* try: ... except CustomValidationError: raise; except Exception: raise *)
  match content_length with
  | Some s =>
      if String.eqb s "" then call_next
      else
        match py_int s with
        | PRaise e => PRaise e
        | POk n =>
            if Z.ltb max_request_size n then
              PRaise (raise_ValidationError_kw ["error_code"; "message"; "details"]
                        "Request size exceeds maximum allowed size" None
                        [("content_length", OInt n); ("max_size", OInt max_request_size)])
            else call_next
        end
  | None => call_next
  end.

End Validation.

(** ** Facts on float comparisons and the engine *)

Lemma SFleb_trans (a b c : spec_float) :
  SFleb a b = true -> SFleb b c = true -> SFleb a c = true.
Proof.
  unfold SFleb, SFcompare.
  destruct a as [sa|sa| |sa ma ea], b as [sb|sb| |sb mb eb], c as [sc|sc| |sc mc ec];
    try destruct sa; try destruct sb; try destruct sc; try reflexivity; try discriminate;
    change (Pos.compare_cont Eq) with Pos.compare;
    repeat match goal with
    | |- context [Z.compare ?x ?y] => destruct (Z.compare_spec x y)
    | H : context [Z.compare ?x ?y] |- _ => destruct (Z.compare_spec x y)
    | |- context [Pos.compare ?x ?y] => destruct (Pos.compare_spec x y)
    | H : context [Pos.compare ?x ?y] |- _ => destruct (Pos.compare_spec x y)
    end; simpl; intros; subst; try reflexivity; try discriminate; lia.
Qed.

Lemma leb_trans_f (x y z : float) :
  PrimFloat.leb x y = true -> PrimFloat.leb y z = true -> PrimFloat.leb x z = true.
Proof. rewrite !leb_spec. apply SFleb_trans. Qed.

Definition sf_nonneg (f : spec_float) : bool :=
  match f with S754_finite true _ _ | S754_infinity true => false | _ => true end.

Lemma binary_round_aux_nonneg (prec emax : Z) mx ex lx :
  sf_nonneg (binary_round_aux prec emax false mx ex lx) = true.
Proof.
  unfold binary_round_aux.
  destruct (shr_fexp prec emax mx ex lx) as [mrs' e'].
  destruct (shr_fexp prec emax _ e' loc_Exact) as [mrs'' e''].
  destruct (shr_m mrs''); try reflexivity. destruct (Z.leb _ _); reflexivity.
Qed.

Lemma ltb_zero_nonneg (x : float) :
  sf_nonneg (Prim2SF x) = true -> PrimFloat.ltb x (num_ratio 0 1) = false.
Proof.
  intros Hx. rewrite ltb_spec.
  change (Prim2SF (num_ratio 0 1)) with (S754_zero false).
  unfold SFltb, SFcompare.
  destruct (Prim2SF x) as [[|]|[|]| |[|] m e]; try reflexivity; discriminate.
Qed.

Lemma mul_self_nonneg (x : float) : sf_nonneg (Prim2SF (PrimFloat.mul x x)) = true.
Proof.
  rewrite mul_spec. unfold SF64mul, SFmul.
  destruct (Prim2SF x) as [[|]|[|]| |[|] m e]; try reflexivity;
    apply binary_round_aux_nonneg.
Qed.

Lemma mul_nonneg (x y : float) :
  sf_nonneg (Prim2SF x) = true -> sf_nonneg (Prim2SF y) = true ->
  sf_nonneg (Prim2SF (PrimFloat.mul x y)) = true.
Proof.
  rewrite mul_spec. unfold SF64mul, SFmul.
  destruct (Prim2SF x) as [[|]|[|]| |[|] m e], (Prim2SF y) as [[|]|[|]| |[|] m' e'];
    intros Hx Hy; try reflexivity; try discriminate; apply binary_round_aux_nonneg.
Qed.

Lemma add_nonneg (x y : float) :
  sf_nonneg (Prim2SF x) = true -> sf_nonneg (Prim2SF y) = true ->
  sf_nonneg (Prim2SF (PrimFloat.add x y)) = true.
Proof.
  rewrite add_spec. unfold SF64add, SFadd.
  destruct (Prim2SF x) as [[|]|[|]| |[|] m e], (Prim2SF y) as [[|]|[|]| |[|] m' e'];
    intros Hx Hy; try reflexivity; try discriminate.
  unfold binary_normalize. simpl.
  unfold binary_round. destruct (shl_align _ _ _) as [mz ez].
  apply binary_round_aux_nonneg.
Qed.

Lemma dot_acc_self_nonneg_f (acc : float) (v : list float) :
  sf_nonneg (Prim2SF acc) = true -> sf_nonneg (Prim2SF (dot_acc acc v v)) = true.
Proof.
  revert acc; induction v as [|a v IH]; intros acc Hacc; simpl; auto.
  apply IH. apply add_nonneg; auto using mul_self_nonneg.
Qed.

Lemma scipy_cosine_ok_f (u v : list float) : exists c, scipy_cosine u v = Ok c.
Proof.
  unfold scipy_cosine, math_sqrt, np_dot.
  assert (H0 : sf_nonneg (Prim2SF (num_ratio (F:=float) 0 1)) = true) by reflexivity.
  change (@f0 float binary64) with (num_ratio (F:=float) 0 1).
  change (@num_ltb float binary64) with PrimFloat.ltb.
  change (@num_mul float binary64) with PrimFloat.mul.
  rewrite (ltb_zero_nonneg _ (mul_nonneg _ _ (dot_acc_self_nonneg_f _ u H0)
                                               (dot_acc_self_nonneg_f _ v H0))).
  simpl. eexists; reflexivity.
Qed.

Lemma cosine_errors_validation_f (v1 v2 : list float) (e : ApiError) :
  calculate_cosine_similarity v1 v2 = Err e ->
  err_class e = CValidationError /\ err_code e = "VALIDATION_ERROR" /\
  (v1 = [] \/ v2 = [] \/ List.length v1 <> List.length v2).
Proof.
  unfold calculate_cosine_similarity.
  destruct v1 as [|a v1]; [intros H; inversion H; subst; simpl; auto|].
  destruct v2 as [|b v2]; [intros H; inversion H; subst; simpl; auto|].
  simpl orb. destruct (negb _) eqn:Hl.
  - intros H; inversion H; subst; simpl. repeat split; right; right.
    apply negb_true_iff, Nat.eqb_neq in Hl. exact Hl.
  - match goal with |- (if ?c then _ else _) = _ -> _ => destruct c; [discriminate|] end.
    destruct (scipy_cosine_ok_f (a :: v1) (b :: v2)) as [c Hc]. rewrite Hc.
    destruct (num_isnan _); discriminate.
Qed.

(** The only errors [calculate_similarity] reports are validation errors (class [ValidationError], code [VALIDATION_ERROR]), and only for an empty vector or vectors of different lengths: on two non-empty float vectors of the same length it always succeeds. *)
Theorem calculate_similarity_errors_are_validation (v1 v2 : list float) (e : ApiError) :
  calculate_similarity v1 v2 = Err e ->
  err_class e = CValidationError /\ err_code e = "VALIDATION_ERROR" /\
  (v1 = [] \/ v2 = [] \/ List.length v1 <> List.length v2).
Proof.
  unfold calculate_similarity, bind.
  destruct (calculate_cosine_similarity v1 v2) eqn:E; [discriminate|].
  intros H; inversion H; subst. exact (cosine_errors_validation_f _ _ _ E).
Qed.

Lemma calculate_similarity_errors_are_validation_witness :
  calculate_similarity [fl 1; fl 2] [fl 1] =
    Err {| err_class := CValidationError;
           err_message := "Vector dimensions must match: 2 vs 1";
           err_code := "VALIDATION_ERROR";
           err_details := [("field", PyStr "vector_dimensions");
                           ("vector1_dim", PyInt 2); ("vector2_dim", PyInt 1)] |} /\
  List.length [fl 1; fl 2] <> List.length [fl 1].
Proof.
  assert (E : calculate_similarity [fl 1; fl 2] [fl 1] =
    Err {| err_class := CValidationError;
           err_message := "Vector dimensions must match: 2 vs 1";
           err_code := "VALIDATION_ERROR";
           err_details := [("field", PyStr "vector_dimensions");
                           ("vector1_dim", PyInt 2); ("vector2_dim", PyInt 1)] |})
    by (vm_compute; reflexivity).
  split; [exact E|].
  destruct (calculate_similarity_errors_are_validation _ _ _ E) as (_ & _ & [H | [H | H]]);
    [discriminate H | discriminate H | exact H].
Defined.

Lemma add_one_not_nan (x : float) :
  PrimFloat.is_nan x = false -> PrimFloat.is_nan (PrimFloat.add x (num_ratio 1 1)) = false.
Proof.
  rewrite !is_nan_Prim2SF, add_spec.
  change (Prim2SF (num_ratio 1 1)) with (S754_finite false 4503599627370496 (-52)).
  unfold SF64add, SFadd.
  destruct (Prim2SF x) as [sx|sx| |sx mx ex]; intros Hx; try reflexivity; try discriminate.
  destruct (binary_normalize _ _ _ _ _) eqn:E; try reflexivity.
  exfalso; exact (binary_normalize_not_nan _ _ _ _ _ E).
Qed.

(** [normalize_similarity_score] returns NaN exactly on NaN, and any other input, infinities included, is mapped into [0, 1]. *)
Theorem normalize_similarity_score_nan_and_range (x : float) :
  PrimFloat.is_nan (normalize_similarity_score x) = PrimFloat.is_nan x /\
  (PrimFloat.is_nan x = false ->
   PrimFloat.leb (num_ratio 0 1) (normalize_similarity_score x) = true /\
   PrimFloat.leb (normalize_similarity_score x) (num_ratio 1 1) = true).
Proof.
  destruct (PrimFloat.is_nan x) eqn:Hx.
  - split; [|discriminate]. unfold normalize_similarity_score, np_clip.
    change (@num_isnan float binary64) with PrimFloat.is_nan.
    change (@num_add float binary64) with PrimFloat.add.
    change (@num_div float binary64) with PrimFloat.div.
    assert (Hn : PrimFloat.is_nan (PrimFloat.div (PrimFloat.add x f1) f2) = true).
    { rewrite !is_nan_Prim2SF in *. rewrite div_spec, add_spec.
      destruct (Prim2SF x); try discriminate. reflexivity. }
    rewrite Hn, Hn. exact Hn.
  - assert (Hn : PrimFloat.is_nan (PrimFloat.div (PrimFloat.add x (num_ratio 1 1)) (num_ratio 2 1)) = false).
    { apply (div_finite_not_nan _ _ false 4503599627370496 (-51)); [|reflexivity].
      apply add_one_not_nan; exact Hx. }
    destruct (np_clip_bounds_f (PrimFloat.div (PrimFloat.add x (num_ratio 1 1)) (num_ratio 2 1))
                (@num_ratio float binary64 0 1) (@num_ratio float binary64 1 1) Hn ltac:(vm_compute; reflexivity)
                ltac:(vm_compute; reflexivity) ltac:(vm_compute; reflexivity)) as [H1 H2].
    split; [|intros _; split; assumption].
    destruct (PrimFloat.is_nan (normalize_similarity_score x)) eqn:E; [|reflexivity].
    exfalso. rewrite is_nan_Prim2SF in E. rewrite leb_spec in H1.
    change (normalize_similarity_score x) with
      (np_clip (PrimFloat.div (PrimFloat.add x (num_ratio 1 1)) (num_ratio 2 1)) (num_ratio 0 1) (num_ratio 1 1)) in E.
    destruct (Prim2SF (np_clip _ _ _)); try discriminate.
Qed.

Definition interpretation_labels : list string :=
  ["Very High Similarity"; "High Similarity"; "Moderate-High Similarity";
   "Moderate Similarity"; "Low-Moderate Similarity"; "Low Similarity";
   "Very Low Similarity"].

Fixpoint label_rank (s : string) (labels : list string) : nat :=
  match labels with
  | [] => 0
  | l :: ls => if String.eqb s l then 0 else S (label_rank s ls)
  end.

Lemma interpret_monotone_gen {F : Type} `{Num F} (x y : F) :
  (forall t, num_leb t x = true -> num_leb t y = true) ->
  label_rank (interpret_similarity_score y) interpretation_labels
  <= label_rank (interpret_similarity_score x) interpretation_labels.
Proof.
  intros T. unfold interpret_similarity_score.
  repeat (let Ex := fresh in
          match goal with
          | |- context [if num_leb ?t x then _ else _] =>
              destruct (num_leb t x) eqn:Ex;
              [rewrite (T _ Ex); vm_compute; lia
              | destruct (num_leb t y);
                [repeat match goal with |- context [if ?c then _ else _] => destruct c end;
                 vm_compute; lia|]]
          end).
  vm_compute; lia.
Qed.

(** [interpret_similarity_score] is monotone: a larger score never gets a lower tier of [interpretation_labels] (rank 0 is the highest tier, [Very High Similarity]). *)
Theorem interpret_similarity_score_monotone (x y : float) :
  PrimFloat.leb x y = true ->
  label_rank (interpret_similarity_score y) interpretation_labels
  <= label_rank (interpret_similarity_score x) interpretation_labels.
Proof.
  intros Hxy. apply interpret_monotone_gen. intros t Ht. exact (leb_trans_f _ _ _ Ht Hxy).
Qed.

Lemma interpret_similarity_score_monotone_witness :
  PrimFloat.leb (PrimFloat.div (fl 1) (fl 2)) (PrimFloat.div (fl 9) (fl 10)) = true /\
  (label_rank (interpret_similarity_score (PrimFloat.div (fl 9) (fl 10))) interpretation_labels
   <= label_rank (interpret_similarity_score (PrimFloat.div (fl 1) (fl 2)))
        interpretation_labels)%nat.
Proof.
  split; [vm_compute; reflexivity|].
  apply interpret_similarity_score_monotone. vm_compute. reflexivity.
Defined.

(** ** The engine's errors as exceptions of app/core/exceptions.py *)






(** ** Exception classes and handlers *)

Section ExceptionFacts.
Import Exceptions Handlers.

Lemma dict_get_set (d : Dict) (k k' : string) (v : PyObj) :
  dict_get (dict_set d k v) k' = if String.eqb k' k then Some v else dict_get d k'.
Proof.
  induction d as [|[k0 v0] d IH]; simpl.
  - reflexivity.
  - destruct (String.eqb k k0) eqn:E.
    + apply String.eqb_eq in E; subst. simpl. destruct (String.eqb k' k0); reflexivity.
    + simpl. rewrite IH. destruct (String.eqb k' k0) eqn:E1, (String.eqb k' k) eqn:E2; auto.
      apply String.eqb_eq in E1, E2; subst. rewrite String.eqb_refl in E; discriminate.
Qed.

Lemma dict_keys_set (d : Dict) (k : string) (v : PyObj) :
  map fst (dict_set d k v) =
  if existsb (String.eqb k) (map fst d) then map fst d else (map fst d ++ [k])%list.
Proof.
  induction d as [|[k0 v0] d IH]; simpl; [reflexivity|].
  destruct (String.eqb k k0) eqn:E; simpl.
  - apply String.eqb_eq in E; subst; reflexivity.
  - rewrite IH. destruct (existsb _ _); reflexivity.
Qed.

Lemma existsb_eqb_In (k : string) (l : list string) :
  existsb (String.eqb k) l = true <-> In k l.
Proof.
  rewrite existsb_exists. split.
  - intros [x [Hx E]]. apply String.eqb_eq in E; subst; exact Hx.
  - intros H. exists k. split; [exact H | apply String.eqb_refl].
Qed.

Lemma dict_set_nodup (d : Dict) (k : string) (v : PyObj) :
  NoDup (map fst d) -> NoDup (map fst (dict_set d k v)).
Proof.
  intros Hd. rewrite dict_keys_set. destruct (existsb _ _) eqn:E; [exact Hd|].
  apply NoDup_app; auto using NoDup_cons, NoDup_nil.
  - intros x Hx [Hy|[]]; subst. apply not_true_iff_false in E. apply E, existsb_eqb_In, Hx.
Qed.

Lemma update_if_update (d details : Dict) : update_if d details = dict_update d details.
Proof. destruct details; reflexivity. Qed.

Lemma dict_update_nodup (d e : Dict) :
  NoDup (map fst d) -> NoDup (map fst (dict_update d e)).
Proof.
  revert d; induction e as [|[k v] e IH]; intros d Hd; simpl; auto.
  apply IH, dict_set_nodup, Hd.
Qed.

Lemma dict_get_none (d : Dict) (k : string) :
  ~ In k (map fst d) -> dict_get d k = None.
Proof.
  induction d as [|[k0 v0] d IH]; simpl; intros H; [reflexivity|].
  destruct (String.eqb k k0) eqn:E.
  - apply String.eqb_eq in E; subst. exfalso; auto.
  - auto.
Qed.

Lemma dict_get_update (d e : Dict) (k : string) :
  NoDup (map fst e) ->
  dict_get (dict_update d e) k =
  match dict_get e k with Some v => Some v | None => dict_get d k end.
Proof.
  revert d; induction e as [|[k0 v0] e IH]; intros d He; [reflexivity|].
  inversion He as [|? ? Hk0 He']; subst.
  change (dict_update d ((k0, v0) :: e)) with (dict_update (dict_set d k0 v0) e).
  rewrite IH by exact He'. rewrite dict_get_set. simpl.
  destruct (String.eqb k k0) eqn:E.
  - apply String.eqb_eq in E; subst. rewrite dict_get_none by exact Hk0. reflexivity.
  - destruct (dict_get e k); reflexivity.
Qed.

Lemma dict_keys_update_prefix (d e : Dict) :
  exists rest, map fst (dict_update d e) = (map fst d ++ rest)%list.
Proof.
  revert d; induction e as [|[k v] e IH]; intros d; simpl.
  - exists []. rewrite app_nil_r. reflexivity.
  - destruct (IH (dict_set d k v)) as [rest Hr].
    change (fold_left _ e (dict_set d k v)) with (dict_update (dict_set d k v) e). rewrite Hr.
    rewrite dict_keys_set. destruct (existsb _ _).
    + exists rest; reflexivity.
    + exists (k :: rest). rewrite <- app_assoc. reflexivity.
Qed.

Lemma keyed_details (key : string) (x : option string) (details : Dict) :
  NoDup (map fst details) ->
  let d := update_if (match x with
                      | Some f => if String.eqb f "" then [] else [(key, OStr f)]
                      | None => [] end) details in
  NoDup (map fst d) /\
  dict_get d key =
    match dict_get details key with
    | Some v => Some v
    | None => match x with
              | Some f => if String.eqb f "" then None else Some (OStr f)
              | None => None end
    end /\
  (forall k, k <> key -> dict_get d k = dict_get details k) /\
  (forall f, x = Some f -> f <> "" -> exists rest, map fst d = key :: rest).
Proof.
  intros Hd d. subst d. rewrite update_if_update.
  set (base := match x with
               | Some f => if String.eqb f "" then [] else [(key, OStr f)]
               | None => [] end).
  assert (Hb : NoDup (map fst base)).
  { subst base. destruct x as [f|]; [destruct (String.eqb f "")|]; simpl;
      auto using NoDup_nil, NoDup_cons. }
  split; [apply dict_update_nodup, Hb|].
  split; [|split].
  - rewrite dict_get_update by exact Hd. destruct (dict_get details key); [reflexivity|].
    subst base. destruct x as [f|]; [|reflexivity].
    destruct (String.eqb f ""); simpl; [reflexivity|]. rewrite String.eqb_refl. reflexivity.
  - intros k Hk. rewrite dict_get_update by exact Hd.
    destruct (dict_get details k); [reflexivity|].
    subst base. destruct x as [f|]; [|reflexivity].
    destruct (String.eqb f ""); simpl; [reflexivity|].
    destruct (String.eqb k key) eqn:E; [apply String.eqb_eq in E; contradiction|reflexivity].
  - intros f Hx Hf. subst x base. apply String.eqb_neq in Hf. rewrite Hf.
    destruct (dict_keys_update_prefix [(key, OStr f)] details) as [rest Hr].
    exists rest. exact Hr.
Qed.

(** [ValidationError(message, field, details)] has code [VALIDATION_ERROR]; its details keep the caller's keys (and their values) and add a [field] entry, placed first, when a non-empty field is given and the caller's details have no [field] key; the handler answers it with status 422. *)
Theorem validation_error_details (message : string) (field : option string) (details : Dict) :
  NoDup (map fst details) ->
  let e := ValidationError message field details in
  exc_code e = "VALIDATION_ERROR" /\
  NoDup (map fst (exc_details e)) /\
  dict_get (exc_details e) "field" =
    match dict_get details "field" with
    | Some v => Some v
    | None => match field with
              | Some f => if String.eqb f "" then None else Some (OStr f)
              | None => None end
    end /\
  (forall k, k <> "field" -> dict_get (exc_details e) k = dict_get details k) /\
  (forall f, field = Some f -> f <> "" -> exists rest, map fst (exc_details e) = "field" :: rest) /\
  status_code (handle (RApi e)) = 422%Z.
Proof.
  intros Hd e. destruct (keyed_details "field" field details Hd) as [H1 [H2 [H3 H4]]].
  split; [reflexivity|]. split; [exact H1|]. split; [exact H2|].
  split; [exact H3|]. split; [exact H4|]. reflexivity.
Qed.

Lemma validation_error_details_witness :
  NoDup (map fst [("value", OInt 3)]) /\
  dict_get (exc_details (ValidationError "Invalid score" (Some "score") [("value", OInt 3)]))
    "field" = Some (OStr "score") /\
  status_code (handle (RApi (ValidationError "Invalid score" (Some "score")
                               [("value", OInt 3)]))) = 422%Z.
Proof.
  assert (Hd : NoDup (map fst [("value", OInt 3)])) by (repeat constructor; simpl; tauto).
  pose proof (validation_error_details "Invalid score" (Some "score") _ Hd) as H.
  cbv zeta in H. destruct H as (_ & _ & H3 & _ & _ & H6).
  split; [exact Hd|]. split; [rewrite H3; reflexivity | exact H6].
Defined.

(** [ConfigurationError(message, config_key, details)] has code [CONFIGURATION_ERROR]; its details keep the caller's keys and add a [config_key] entry, placed first, when a non-empty key is given and the details have none; the handler answers it with status 500. *)
Theorem configuration_error_details (message : string) (config_key : option string)
  (details : Dict) :
  NoDup (map fst details) ->
  let e := ConfigurationError message config_key details in
  exc_code e = "CONFIGURATION_ERROR" /\
  NoDup (map fst (exc_details e)) /\
  dict_get (exc_details e) "config_key" =
    match dict_get details "config_key" with
    | Some v => Some v
    | None => match config_key with
              | Some k => if String.eqb k "" then None else Some (OStr k)
              | None => None end
    end /\
  (forall k, k <> "config_key" -> dict_get (exc_details e) k = dict_get details k) /\
  (forall k, config_key = Some k -> k <> "" ->
     exists rest, map fst (exc_details e) = "config_key" :: rest) /\
  status_code (handle (RApi e)) = 500%Z.
Proof.
  intros Hd e. destruct (keyed_details "config_key" config_key details Hd) as [H1 [H2 [H3 H4]]].
  split; [reflexivity|]. split; [exact H1|]. split; [exact H2|].
  split; [exact H3|]. split; [exact H4|]. reflexivity.
Qed.

Lemma configuration_error_details_witness :
  NoDup (map fst (@nil (string * PyObj))) /\
  dict_get (exc_details (ConfigurationError "Missing setting" (Some "OPENAI_API_KEY") []))
    "config_key" = Some (OStr "OPENAI_API_KEY") /\
  status_code (handle (RApi (ConfigurationError "Missing setting" (Some "OPENAI_API_KEY") [])))
    = 500%Z.
Proof.
  assert (Hd : NoDup (map fst (@nil (string * PyObj)))) by constructor.
  pose proof (configuration_error_details "Missing setting" (Some "OPENAI_API_KEY") _ Hd) as H.
  cbv zeta in H. destruct H as (_ & _ & H3 & _ & _ & H6).
  split; [exact Hd|]. split; [rewrite H3; reflexivity | exact H6].
Defined.

Lemma append_eq_self (s t : string) : s ++ t = s -> t = "".
Proof.
  induction s as [|c s IH]; simpl; [auto|]. intros E. injection E as E. auto.
Qed.

Lemma single_details (key : string) (v : PyObj) (details : Dict) :
  NoDup (map fst details) ->
  let d := update_if [(key, v)] details in
  NoDup (map fst d) /\
  dict_get d key = match dict_get details key with Some w => Some w | None => Some v end /\
  (forall k, k <> key -> dict_get d k = dict_get details k) /\
  exists rest, map fst d = key :: rest.
Proof.
  intros Hd d. subst d. rewrite update_if_update.
  split; [apply dict_update_nodup; simpl; auto using NoDup_cons, NoDup_nil|].
  split; [|split].
  - rewrite dict_get_update by exact Hd. simpl. rewrite String.eqb_refl.
    destruct (dict_get details key); reflexivity.
  - intros k Hk. rewrite dict_get_update by exact Hd. simpl.
    destruct (String.eqb k key) eqn:E; [apply String.eqb_eq in E; contradiction|].
    destruct (dict_get details k); reflexivity.
  - exact (dict_keys_update_prefix [(key, v)] details).
Qed.

Lemma double_details (k1 k2 : string) (v1 v2 : PyObj) (details : Dict) :
  k1 <> k2 -> NoDup (map fst details) ->
  let d := update_if [(k1, v1)] (update_if [(k2, v2)] details) in
  NoDup (map fst d) /\
  dict_get d k1 = match dict_get details k1 with Some w => Some w | None => Some v1 end /\
  dict_get d k2 = match dict_get details k2 with Some w => Some w | None => Some v2 end /\
  (forall k, k <> k1 -> k <> k2 -> dict_get d k = dict_get details k) /\
  exists rest, map fst d = k1 :: k2 :: rest.
Proof.
  intros Hne Hd d. subst d.
  destruct (single_details k2 v2 details Hd) as [Hn2 [Hg2 [Ho2 [r2 Hr2]]]].
  set (inner := update_if [(k2, v2)] details) in *.
  destruct (single_details k1 v1 inner Hn2) as [Hn1 [Hg1 [Ho1 _]]].
  split; [exact Hn1|]. split; [|split; [|split]].
  - rewrite Hg1, (Ho2 k1 Hne).
    destruct (dict_get details k1); reflexivity.
  - rewrite Ho1 by (intros E; apply Hne; symmetry; exact E). exact Hg2.
  - intros k Hk1 Hk2. rewrite Ho1 by exact Hk1. apply Ho2, Hk2.
  - destruct inner as [|[k w] inner'] eqn:Ei; [discriminate|].
    simpl in Hr2. injection Hr2 as Hk _. subst k.
    rewrite update_if_update.
    change (dict_update [(k1, v1)] ((k2, w) :: inner'))
      with (dict_update (dict_set [(k1, v1)] k2 w) inner').
    simpl. apply String.eqb_neq in Hne. rewrite (String.eqb_sym k2 k1), Hne.
    destruct (dict_keys_update_prefix [(k1, v1); (k2, w)] inner') as [rest Hr].
    exists rest. exact Hr.
Qed.

(** [SessionNotFoundError(session_id, details)] has code [SESSION_NOT_FOUND]; its details start with [session_id] (the caller's value for that key wins), keep the caller's other keys; the handler answers it with status 404. *)
Theorem session_not_found_error_details (session_id : Z) (details : Dict) :
  NoDup (map fst details) ->
  let e := SessionNotFoundError session_id details in
  exc_code e = "SESSION_NOT_FOUND" /\
  NoDup (map fst (exc_details e)) /\
  dict_get (exc_details e) "session_id" =
    match dict_get details "session_id" with
    | Some v => Some v
    | None => Some (OInt session_id)
    end /\
  (forall k, k <> "session_id" -> dict_get (exc_details e) k = dict_get details k) /\
  (exists rest, map fst (exc_details e) = "session_id" :: rest) /\
  status_code (handle (RApi e)) = 404%Z.
Proof.
  intros Hd e. destruct (single_details "session_id" (OInt session_id) details Hd)
    as [H1 [H2 [H3 H4]]].
  split; [reflexivity|]. split; [exact H1|]. split; [exact H2|].
  split; [exact H3|]. split; [exact H4|]. reflexivity.
Qed.

Lemma session_not_found_error_details_witness :
  NoDup (map fst [("user", OStr "alice")]) /\
  dict_get (exc_details (SessionNotFoundError 42 [("user", OStr "alice")])) "session_id"
    = Some (OInt 42) /\
  dict_get (exc_details (SessionNotFoundError 42 [("user", OStr "alice")])) "user"
    = Some (OStr "alice") /\
  status_code (handle (RApi (SessionNotFoundError 42 [("user", OStr "alice")]))) = 404%Z.
Proof.
  assert (Hd : NoDup (map fst [("user", OStr "alice")])) by (repeat constructor; simpl; tauto).
  pose proof (session_not_found_error_details 42 _ Hd) as H.
  cbv zeta in H. destruct H as (_ & _ & H3 & H4 & _ & H6).
  split; [exact Hd|]. split; [rewrite H3; reflexivity|].
  split; [rewrite H4; [reflexivity | discriminate] | exact H6].
Defined.



(** [RateLimitError(service_name, retry_after, details)] has code [RATE_LIMIT_EXCEEDED]; its message mentions a retry delay exactly when [retry_after] is given and non-zero; its details start with [service] and [retry_after] ([None] when absent) unless the caller's details give them; the handler answers it with status 429. *)
Theorem rate_limit_error_details (service_name : string) (retry_after : option Z) (details : Dict) :
  NoDup (map fst details) ->
  let e := RateLimitError service_name retry_after details in
  exc_code e = "RATE_LIMIT_EXCEEDED" /\
  (exc_message e = "Rate limit exceeded for " ++ service_name <->
   match retry_after with Some n => n = 0%Z | None => True end) /\
  NoDup (map fst (exc_details e)) /\
  dict_get (exc_details e) "service" =
    match dict_get details "service" with Some v => Some v | None => Some (OStr service_name) end /\
  dict_get (exc_details e) "retry_after" =
    match dict_get details "retry_after" with
    | Some v => Some v
    | None => Some (match retry_after with Some n => OInt n | None => ONone end)
    end /\
  (exists rest, map fst (exc_details e) = "service" :: "retry_after" :: rest) /\
  status_code (handle (RApi e)) = 429%Z.
Proof.
  intros Hd e.
  assert (Hne : "service" <> "retry_after") by discriminate.
  destruct (double_details "service" "retry_after" (OStr service_name)
              (match retry_after with Some n => OInt n | None => ONone end)
              details Hne Hd) as [H1 [H2 [H3 [H4 H5]]]].
  split; [reflexivity|]. split; [|repeat split; try reflexivity; assumption].
  assert (Hm : exc_message e =
    match retry_after with
    | Some n => if Z.eqb n 0 then "Rate limit exceeded for " ++ service_name
                else ("Rate limit exceeded for " ++ service_name) ++
                       ". Retry after " ++ py_str_Z n ++ " seconds"
    | None => "Rate limit exceeded for " ++ service_name
    end) by reflexivity.
  rewrite Hm. destruct retry_after as [n|]; [|tauto].
  destruct (Z.eqb_spec n 0) as [Hn|Hn]; [tauto|].
  split; [|intros; contradiction].
  intros E. apply append_eq_self in E. discriminate E.
Qed.

Lemma rate_limit_error_details_witness :
  NoDup (map fst (@nil (string * PyObj))) /\
  exc_message (RateLimitError "openai" (Some 30%Z) []) <> "Rate limit exceeded for " ++ "openai" /\
  dict_get (exc_details (RateLimitError "openai" (Some 30%Z) [])) "retry_after"
    = Some (OInt 30) /\
  status_code (handle (RApi (RateLimitError "openai" (Some 30%Z) []))) = 429%Z.
Proof.
  assert (Hd : NoDup (map fst (@nil (string * PyObj)))) by constructor.
  pose proof (rate_limit_error_details "openai" (Some 30%Z) _ Hd) as H.
  cbv zeta in H. destruct H as (_ & H2 & _ & _ & H5 & _ & H7).
  split; [exact Hd|]. split; [intros E; apply H2 in E; discriminate E|].
  split; [rewrite H5; reflexivity | exact H7].
Defined.

(** The handler looks the status up by exact class: the base classes [SpeechSimilarityAPIError], [SessionError], [AudioError] and [ProcessingError] are answered with 500 (their code, message and details passed through), while [ExternalServiceError] gets 502. *)
Theorem handler_maps_exact_class (message : string) (error_code : option string) (details : Dict) :
  Forall (fun e => handle (RApi e) =
                   {| status_code := 500%Z; resp_error_code := exc_code e;
                      resp_message := message; resp_details := details |})
    [SpeechSimilarityAPIError message error_code details;
     SessionError message error_code details;
     AudioError message error_code details;
     ProcessingError message error_code details] /\
  status_code (handle (RApi (ExternalServiceError message "openai" error_code details))) = 502%Z.
Proof. split; [repeat constructor|reflexivity]. Qed.

End ExceptionFacts.

(** ** Embedding service and endpoint *)

Section EmbeddingFacts.
Import Exceptions Handlers Embedding Endpoint.

(** Example answers of the embeddings API, used by the examples below. *)
Definition two_vectors_response : CreateEmbeddingResponse :=
  {| data := [[fl 1; fl 2]; [fl 2; fl 1]]; total_tokens := 10 |}.
Definition one_vector_response : CreateEmbeddingResponse :=
  {| data := [[fl 1; fl 2]]; total_tokens := 5 |}.
Definition empty_response : CreateEmbeddingResponse :=
  {| data := []; total_tokens := 0 |}.
Definition two_vectors_create (_ : EmbeddingsInput) : PyResult CreateEmbeddingResponse :=
  POk two_vectors_response.
Definition one_vector_create (_ : EmbeddingsInput) : PyResult CreateEmbeddingResponse :=
  POk one_vector_response.
Definition empty_create (_ : EmbeddingsInput) : PyResult CreateEmbeddingResponse :=
  POk empty_response.
Definition rate_limited_error : Raised :=
  RBuiltin "RateLimitError" "Error code: 429 - Rate limit reached for requests".
Definition rate_limited_create (_ : EmbeddingsInput) : PyResult CreateEmbeddingResponse :=
  PRaise rate_limited_error.

Definition sent_texts (texts : list string) : list string :=
  map truncate (filter (fun t => negb (is_blank t)) texts).

Lemma fold_valid_texts (texts acc : list string) :
  fold_left (fun valid_texts text =>
               if is_blank text then valid_texts else (valid_texts ++ [truncate text])%list)
    texts acc = (acc ++ sent_texts texts)%list.
Proof.
  unfold sent_texts. revert acc; induction texts as [|t texts IH]; intros acc; simpl.
  - rewrite app_nil_r; reflexivity.
  - rewrite IH. destruct (is_blank t); simpl; [reflexivity|]. rewrite <- app_assoc; reflexivity.
Qed.

Lemma fold_results (mk : list float -> EmbeddingResult) (ds : list (list float))
  (acc : list EmbeddingResult) :
  fold_left (fun results d => (results ++ [mk d])%list) ds acc = (acc ++ map mk ds)%list.
Proof.
  revert acc; induction ds as [|d ds IH]; intros acc; simpl.
  - rewrite app_nil_r; reflexivity.
  - rewrite IH, <- app_assoc; reflexivity.
Qed.

Lemma get_embeddings_batch_eq
  (create : EmbeddingsInput -> PyResult CreateEmbeddingResponse) (texts : list string) :
  get_embeddings_batch create texts =
  match texts with
  | [] => PRaise (RApi (ValidationError "Texts list cannot be empty" (Some "texts") []))
  | _ =>
      match sent_texts texts with
      | [] => PRaise (RApi (ValidationError "No valid texts found after filtering"
                              (Some "texts") []))
      | _ =>
          match create (InputMany (sent_texts texts)) with
          | PRaise e => PRaise (api_error "batch_embedding_generation" "batch_embeddings" e)
          | POk response =>
              POk (map (fun d => {| vector := d; model := model_name;
                          usage_tokens := Z.div (total_tokens response)
                                            (Z.of_nat (List.length (data response))) |})
                     (data response))
          end
      end
  end.
Proof.
  unfold get_embeddings_batch. destruct texts as [|t texts]; [reflexivity|].
  rewrite fold_valid_texts. simpl app.
  destruct (sent_texts (t :: texts)); [reflexivity|].
  destruct (create _); [|reflexivity]. rewrite fold_results. reflexivity.
Qed.

Lemma substring_prefix (n : nat) (t : string) : String.prefix (substring 0 n t) t = true.
Proof.
  revert t; induction n as [|n IH]; intros t; simpl.
  - destruct t; reflexivity.
  - destruct t as [|c t]; [reflexivity|]. simpl.
    destruct (ascii_dec c c); [apply IH|contradiction].
Qed.

Lemma substring_length (n : nat) (t : string) : String.length (substring 0 n t) <= n.
Proof.
  revert t; induction n as [|n IH]; intros t; simpl.
  - destruct t; simpl; lia.
  - destruct t as [|c t]; simpl; [lia|]. specialize (IH t); lia.
Qed.

Lemma prefix_refl (t : string) : String.prefix t t = true.
Proof.
  induction t as [|c t IH]; simpl; [reflexivity|]. destruct (ascii_dec c c); [exact IH|contradiction].
Qed.

Lemma truncate_spec (t : string) :
  (String.length (truncate t) <= max_tokens * 4)%nat /\ String.prefix (truncate t) t = true /\
  ((String.length t <= max_tokens * 4)%nat -> truncate t = t).
Proof.
  unfold truncate.
  destruct (Nat.ltb_spec (max_tokens * 4) (String.length t)).
  - split; [apply substring_length|]. split; [apply substring_prefix|lia].
  - split; [lia|]. split; [apply prefix_refl|reflexivity].
Qed.

Lemma filter_sent_nil (texts : list string) :
  forallb is_blank texts = true -> sent_texts texts = [].
Proof.
  unfold sent_texts. induction texts as [|t texts IH]; simpl; [reflexivity|].
  intros H. apply andb_true_iff in H as [H1 H2]. rewrite H1. simpl. apply IH, H2.
Qed.

(** [get_embeddings_batch] on a list of blank texts (empty included) raises [ValidationError] with field [texts] without calling the API. *)
Theorem get_embeddings_batch_blank_inputs
  (create : EmbeddingsInput -> PyResult CreateEmbeddingResponse) (texts : list string) :
  forallb is_blank texts = true ->
  get_embeddings_batch create texts =
  PRaise (RApi (ValidationError
                  (match texts with
                   | [] => "Texts list cannot be empty"
                   | _ => "No valid texts found after filtering" end)
                  (Some "texts") [])).
Proof.
  intros H. rewrite get_embeddings_batch_eq, (filter_sent_nil texts H).
  destruct texts; reflexivity.
Qed.

Lemma get_embeddings_batch_blank_inputs_witness :
  forallb is_blank [" "; ""] = true /\
  get_embeddings_batch two_vectors_create [" "; ""] =
  PRaise (RApi (ValidationError "No valid texts found after filtering" (Some "texts") [])).
Proof.
  assert (Hb : forallb is_blank [" "; ""] = true) by (vm_compute; reflexivity).
  split; [exact Hb|].
  exact (get_embeddings_batch_blank_inputs two_vectors_create [" "; ""] Hb).
Defined.

(** [get_embeddings_batch] depends on the API only through one request for the non-blank texts, in order, each truncated to a prefix of at most [max_tokens * 4] characters. *)
Theorem get_embeddings_batch_request (texts : list string) :
  (forall create1 create2 : EmbeddingsInput -> PyResult CreateEmbeddingResponse,
     create1 (InputMany (sent_texts texts)) = create2 (InputMany (sent_texts texts)) ->
     get_embeddings_batch create1 texts = get_embeddings_batch create2 texts) /\
  Forall2 (fun t s => (String.length s <= max_tokens * 4)%nat /\ String.prefix s t = true)
    (filter (fun t => negb (is_blank t)) texts) (sent_texts texts).
Proof.
  split.
  - intros c1 c2 E. rewrite !get_embeddings_batch_eq, E. reflexivity.
  - unfold sent_texts. induction (filter _ texts) as [|t l IH]; cbn [map]; constructor.
    + destruct (truncate_spec t) as [H1 [H2 _]]. split; assumption.
    + exact IH.
Qed.

(** When the API answers, [get_embeddings_batch] returns the API's vectors in order, each tagged with the model name and an equal share of the total token usage; the shares sum to at most the total. *)
Theorem get_embeddings_batch_results
  (create : EmbeddingsInput -> PyResult CreateEmbeddingResponse) (texts : list string)
  (response : CreateEmbeddingResponse) :
  sent_texts texts <> [] ->
  create (InputMany (sent_texts texts)) = POk response ->
  exists results,
    get_embeddings_batch create texts = POk results /\
    map vector results = data response /\
    Forall (fun r => model r = model_name /\
                     usage_tokens r = Z.div (total_tokens response)
                                        (Z.of_nat (List.length (data response)))) results /\
    ((0 <= total_tokens response)%Z ->
     (fold_right Z.add 0%Z (map usage_tokens results) <= total_tokens response)%Z).
Proof.
  intros Hs Hc. rewrite get_embeddings_batch_eq.
  destruct texts as [|t texts]; [contradiction|].
  destruct (sent_texts (t :: texts)) eqn:Es; [contradiction|]. rewrite Hc.
  eexists; split; [reflexivity|].
  set (n := List.length (data response)).
  set (u := Z.div (total_tokens response) (Z.of_nat n)).
  split; [rewrite map_map; apply map_id|].
  split.
  - apply Forall_forall. intros r Hr. apply in_map_iff in Hr as [d [<- _]]. split; reflexivity.
  - intros Htot. rewrite map_map. simpl.
    assert (Hsum : forall l : list (list float),
               fold_right Z.add 0%Z (map (fun _ => u) l) = (Z.of_nat (List.length l) * u)%Z).
    { intros ds; induction ds as [|d ds IH]; cbn [map fold_right List.length]; [reflexivity|].
      rewrite IH, Nat2Z.inj_succ, Z.mul_succ_l. lia. }
    rewrite Hsum. fold n. subst u.
    destruct n as [|n']; [simpl; lia|].
    assert (Hpos : (0 < Z.of_nat (S n'))%Z) by lia.
    pose proof (Z.mul_div_le (total_tokens response) _ Hpos) as Hle. lia.
Qed.

Lemma get_embeddings_batch_results_witness :
  sent_texts ["hello"; "  "; "world"] <> [] /\
  exists results,
    get_embeddings_batch two_vectors_create ["hello"; "  "; "world"] = POk results /\
    map vector results = [[fl 1; fl 2]; [fl 2; fl 1]] /\
    Forall (fun r => usage_tokens r = 5%Z) results.
Proof.
  assert (Hs : sent_texts ["hello"; "  "; "world"] <> []) by (vm_compute; discriminate).
  split; [exact Hs|].
  destruct (get_embeddings_batch_results two_vectors_create ["hello"; "  "; "world"]
              two_vectors_response Hs eq_refl) as (results & H1 & H2 & H3 & _).
  exists results. split; [exact H1|]. split; [exact H2|].
  eapply Forall_impl; [|exact H3]. intros r [_ Hu]. rewrite Hu. reflexivity.
Defined.

Lemma api_error_cases (rl op : string) (e : Raised) :
  let s := str_raised e in
  api_error rl op e =
  if py_contains "rate_limit" (py_lower s) || py_contains "429" s then
    RApi {| exc_type := TRateLimitError; exc_message := "Rate limit exceeded for openai";
            exc_code := "RATE_LIMIT_EXCEEDED";
            exc_details := [("service", OStr "openai"); ("retry_after", ONone);
                            ("operation", OStr rl)] |}
  else
    RApi {| exc_type := TEmbeddingError;
            exc_message := "OpenAI embeddings API error: " ++ s;
            exc_code := "EMBEDDING_SERVICE_ERROR";
            exc_details := [("service", OStr "openai"); ("operation", OStr op)] |}.
Proof. reflexivity. Qed.

(** When the API raises, [get_embeddings_batch] raises [RateLimitError] (answered 429) if the error's text mentions [rate_limit] (any case) or [429], and [EmbeddingError] (answered 502) otherwise. *)
Theorem get_embeddings_batch_api_failure
  (create : EmbeddingsInput -> PyResult CreateEmbeddingResponse) (texts : list string)
  (e : Raised) :
  sent_texts texts <> [] ->
  create (InputMany (sent_texts texts)) = PRaise e ->
  let s := str_raised e in
  exists exc,
    get_embeddings_batch create texts = PRaise (RApi exc) /\
    (if py_contains "rate_limit" (py_lower s) || py_contains "429" s then
       handle (RApi exc) =
       {| status_code := 429; resp_error_code := "RATE_LIMIT_EXCEEDED";
          resp_message := "Rate limit exceeded for openai";
          resp_details := [("service", OStr "openai"); ("retry_after", ONone);
                           ("operation", OStr "batch_embedding_generation")] |}
     else
       handle (RApi exc) =
       {| status_code := 502; resp_error_code := "EMBEDDING_SERVICE_ERROR";
          resp_message := "OpenAI embeddings API error: " ++ s;
          resp_details := [("service", OStr "openai"); ("operation", OStr "batch_embeddings")] |}).
Proof.
  intros Hs Hc s. rewrite get_embeddings_batch_eq.
  destruct texts as [|t texts]; [contradiction|].
  destruct (sent_texts (t :: texts)) eqn:Es; [contradiction|]. rewrite Hc.
  rewrite api_error_cases. fold s.
  destruct (py_contains "rate_limit" (py_lower s) || py_contains "429" s);
    eexists; split; reflexivity.
Qed.

Lemma get_embeddings_batch_api_failure_witness :
  sent_texts ["hello"] <> [] /\
  exists exc,
    get_embeddings_batch rate_limited_create ["hello"] = PRaise (RApi exc) /\
    status_code (handle (RApi exc)) = 429%Z.
Proof.
  assert (Hs : sent_texts ["hello"] <> []) by (vm_compute; discriminate).
  split; [exact Hs|].
  pose proof (get_embeddings_batch_api_failure rate_limited_create ["hello"]
                rate_limited_error Hs eq_refl) as H.
  cbv zeta in H. destruct H as (exc & H1 & H2).
  assert (Hc : (py_contains "rate_limit" (py_lower (str_raised rate_limited_error))
                || py_contains "429" (str_raised rate_limited_error)) = true)
    by (vm_compute; reflexivity).
  rewrite Hc in H2. exists exc. split; [exact H1|]. rewrite H2. reflexivity.
Defined.

(** [get_embedding] on a blank text raises [ValidationError] with field [text]. *)
Theorem get_embedding_blank_input
  (create : EmbeddingsInput -> PyResult CreateEmbeddingResponse) (text : string) :
  is_blank text = true ->
  get_embedding create text =
  PRaise (RApi (ValidationError "Text cannot be empty" (Some "text") [])).
Proof. intros H. unfold get_embedding. rewrite H. reflexivity. Qed.

Lemma get_embedding_blank_input_witness :
  is_blank "   " = true /\
  get_embedding two_vectors_create "   " =
  PRaise (RApi (ValidationError "Text cannot be empty" (Some "text") [])).
Proof.
  assert (Hb : is_blank "   " = true) by (vm_compute; reflexivity).
  split; [exact Hb|]. exact (get_embedding_blank_input two_vectors_create "   " Hb).
Defined.

(** [get_embedding] on a non-blank text returns the API's first vector with the total token usage; an answer without data becomes an [EmbeddingError] (answered 502) whose message carries the [IndexError] text. *)
Theorem get_embedding_response
  (create : EmbeddingsInput -> PyResult CreateEmbeddingResponse) (text : string)
  (response : CreateEmbeddingResponse) :
  is_blank text = false ->
  create (InputOne (truncate text)) = POk response ->
  match data response with
  | [] =>
      exists exc,
        get_embedding create text = PRaise (RApi exc) /\
        handle (RApi exc) =
        {| status_code := 502; resp_error_code := "EMBEDDING_SERVICE_ERROR";
           resp_message := "OpenAI embeddings API error: list index out of range";
           resp_details := [("service", OStr "openai"); ("operation", OStr "single_embedding")] |}
  | d :: _ =>
      get_embedding create text =
      POk {| vector := d; model := model_name; usage_tokens := total_tokens response |}
  end.
Proof.
  intros Hb Hc. unfold get_embedding. rewrite Hb. cbv zeta. rewrite Hc.
  destruct (data response) as [|d ds]; [|reflexivity].
  eexists; split; reflexivity.
Qed.

Lemma get_embedding_response_witness :
  is_blank "hello" = false /\
  get_embedding two_vectors_create "hello" =
    POk {| vector := [fl 1; fl 2]; model := model_name; usage_tokens := 10 |} /\
  exists exc,
    get_embedding empty_create "hello" = PRaise (RApi exc) /\
    status_code (handle (RApi exc)) = 502%Z.
Proof.
  assert (Hb : is_blank "hello" = false) by (vm_compute; reflexivity).
  split; [exact Hb|]. split.
  - exact (get_embedding_response two_vectors_create "hello" two_vectors_response Hb eq_refl).
  - destruct (get_embedding_response empty_create "hello" empty_response Hb eq_refl)
      as (exc & H1 & H2).
    exists exc. split; [exact H1|]. rewrite H2. reflexivity.
Defined.

Lemma endpoint_eq (create : EmbeddingsInput -> PyResult CreateEmbeddingResponse)
  (t r : string) (response : CreateEmbeddingResponse) :
  is_blank t = false -> is_blank r = false ->
  create (InputMany [truncate t; truncate r]) = POk response ->
  endpoint_similarity_score create t r =
  match nth_error (data response) 0, nth_error (data response) 1 with
  | Some et, Some er =>
      match calculate_similarity et er with
      | Ok res => POk (normalized_score res)
      | Err e => PRaise (RApi (of_api_error e))
      end
  | _, _ => PRaise (RBuiltin "IndexError" "list index out of range")
  end.
Proof.
  intros Ht Hr Hc. unfold endpoint_similarity_score. rewrite get_embeddings_batch_eq.
  assert (Hs : sent_texts [t; r] = [truncate t; truncate r])
    by (unfold sent_texts; simpl; rewrite Ht, Hr; reflexivity).
  rewrite Hs, Hc.
  destruct (data response) as [|et [|er ds]]; reflexivity.
Qed.

(** Steps 3 and 4 of the [calculate_similarity] endpoint: when the API returns two vectors, the endpoint's score is the engine's normalized score and lies in [0, 1]; an engine error reaches the client as a 422 [VALIDATION_ERROR]. *)
Theorem endpoint_score_in_unit_range
  (create : EmbeddingsInput -> PyResult CreateEmbeddingResponse)
  (transcribed_text reference_text : string) (response : CreateEmbeddingResponse)
  (et er : list float) :
  is_blank transcribed_text = false -> is_blank reference_text = false ->
  create (InputMany [truncate transcribed_text; truncate reference_text]) = POk response ->
  data response = [et; er] ->
  match endpoint_similarity_score create transcribed_text reference_text with
  | POk s =>
      (exists res, calculate_similarity et er = Ok res /\ normalized_score res = s) /\
      PrimFloat.leb PrimFloat.zero s = true /\ PrimFloat.leb s PrimFloat.one = true
  | PRaise e =>
      (exists err, calculate_similarity et er = Err err) /\
      status_code (handle e) = 422%Z /\ resp_error_code (handle e) = "VALIDATION_ERROR"
  end.
Proof.
  intros Ht Hr Hc Hd. rewrite (endpoint_eq create _ _ response Ht Hr Hc), Hd. simpl.
  destruct (calculate_similarity et er) as [res|err] eqn:E.
  - destruct (calculate_similarity_ok et er res E) as [Ec [Hn _]].
    destruct (raw_score_range (score res) et er Ec) as [Hlo Hhi].
    rewrite Hn. split; [exists res; rewrite Hn; split; reflexivity|].
    exact (normalized_range (score res) Hlo Hhi).
  - split; [exists err; reflexivity|].
    unfold calculate_similarity, bind in E.
    destruct (calculate_cosine_similarity et er) as [c|err'] eqn:Ec; [discriminate|].
    injection E as <-.
    destruct (cosine_errors_validation_f et er err' Ec) as [Hcl [Hco _]].
    unfold handle, speech_similarity_api_exception_handler, of_api_error; simpl.
    rewrite Hcl, Hco. split; reflexivity.
Qed.

Lemma endpoint_score_in_unit_range_witness :
  is_blank "hello" = false /\ is_blank "world" = false /\
  exists s,
    endpoint_similarity_score two_vectors_create "hello" "world" = POk s /\
    PrimFloat.leb PrimFloat.zero s = true /\ PrimFloat.leb s PrimFloat.one = true.
Proof.
  assert (Hb1 : is_blank "hello" = false) by (vm_compute; reflexivity).
  assert (Hb2 : is_blank "world" = false) by (vm_compute; reflexivity).
  split; [exact Hb1|]. split; [exact Hb2|].
  pose proof (endpoint_score_in_unit_range two_vectors_create "hello" "world"
                two_vectors_response [fl 1; fl 2] [fl 2; fl 1] Hb1 Hb2 eq_refl eq_refl) as H.
  destruct (endpoint_similarity_score two_vectors_create "hello" "world") as [s | e] eqn:E.
  - destruct H as (_ & H1 & H2). exists s. auto.
  - vm_compute in E. discriminate E.
Defined.

(** When the API returns fewer than two vectors, the endpoint raises [IndexError], which the generic handler answers with a 500 [INTERNAL_SERVER_ERROR]. *)
Theorem endpoint_missing_embeddings
  (create : EmbeddingsInput -> PyResult CreateEmbeddingResponse)
  (transcribed_text reference_text : string) (response : CreateEmbeddingResponse) :
  is_blank transcribed_text = false -> is_blank reference_text = false ->
  create (InputMany [truncate transcribed_text; truncate reference_text]) = POk response ->
  List.length (data response) < 2 ->
  endpoint_similarity_score create transcribed_text reference_text =
    PRaise (RBuiltin "IndexError" "list index out of range") /\
  handle (RBuiltin "IndexError" "list index out of range") =
  {| status_code := 500; resp_error_code := "INTERNAL_SERVER_ERROR";
     resp_message := "An unexpected error occurred";
     resp_details := [("exception_type", OStr "IndexError")] |}.
Proof.
  intros Ht Hr Hc Hl. rewrite (endpoint_eq create _ _ response Ht Hr Hc).
  split; [|reflexivity].
  destruct (data response) as [|et [|er ds]]; [reflexivity|reflexivity|simpl in Hl; lia].
Qed.

Lemma endpoint_missing_embeddings_witness :
  (List.length (data one_vector_response) < 2)%nat /\
  endpoint_similarity_score one_vector_create "hello" "world" =
    PRaise (RBuiltin "IndexError" "list index out of range").
Proof.
  assert (Hb1 : is_blank "hello" = false) by (vm_compute; reflexivity).
  assert (Hb2 : is_blank "world" = false) by (vm_compute; reflexivity).
  assert (Hl : (List.length (data one_vector_response) < 2)%nat) by (vm_compute; lia).
  split; [exact Hl|].
  exact (proj1 (endpoint_missing_embeddings one_vector_create "hello" "world"
                  one_vector_response Hb1 Hb2 eq_refl Hl)).
Defined.

End EmbeddingFacts.

(** ** Validation utilities *)

Section ValidationFacts.
Import Exceptions Handlers Validation.

Definition error_code_TypeError : Raised :=
  RBuiltin "TypeError"
    "ValidationError.__init__() got an unexpected keyword argument 'error_code'".

Lemma raise_error_code_kw m f d rest :
  raise_ValidationError_kw ("error_code" :: rest) m f d = error_code_TypeError.
Proof. reflexivity. Qed.

(** [validate_similarity_score] accepts exactly the floats in [0, 1]; on any other float (NaN included) its [CustomValidationError(error_code=...)] call raises [TypeError], answered with a 500 [INTERNAL_SERVER_ERROR]. *)
Theorem validate_similarity_score_outcome (s : float) :
  (validate_similarity_score s = POk tt <->
     PrimFloat.leb PrimFloat.zero s = true /\ PrimFloat.leb s PrimFloat.one = true) /\
  (validate_similarity_score s <> POk tt ->
     validate_similarity_score s = PRaise error_code_TypeError /\
     handle error_code_TypeError =
       {| status_code := 500; resp_error_code := "INTERNAL_SERVER_ERROR";
          resp_message := "An unexpected error occurred";
          resp_details := [("exception_type", OStr "TypeError")] |}).
Proof.
  assert (H0 : @num_ratio float binary64 0 1 = PrimFloat.zero) by (vm_compute; reflexivity).
  assert (H1 : @num_ratio float binary64 1 1 = PrimFloat.one) by (vm_compute; reflexivity).
  unfold validate_similarity_score. rewrite H0, H1.
  destruct (PrimFloat.leb PrimFloat.zero s), (PrimFloat.leb s PrimFloat.one); simpl;
    split; try (split; intros; try discriminate; intuition discriminate);
    intros Hn; (exfalso; now apply Hn) || (split; reflexivity).
Qed.


(** [RequestValidationMiddleware.dispatch] with a content length above the limit raises the [TypeError] of the [error_code] keyword without calling the application; at or below the limit it passes the request on. *)
Theorem dispatch_size_check {Response : Type} (max_request_size : Z)
  (py_int : string -> PyResult Z) (s : string) (n : Z) (call_next : PyResult Response)
  (Hs : s <> "") (Hn : py_int s = POk n) :
  ((max_request_size < n)%Z ->
     dispatch max_request_size py_int (Some s) call_next = PRaise error_code_TypeError) /\
  ((n <= max_request_size)%Z ->
     dispatch max_request_size py_int (Some s) call_next = call_next).
Proof.
  unfold dispatch. apply String.eqb_neq in Hs. rewrite Hs, Hn.
  split; intros H.
  - apply Z.ltb_lt in H. rewrite H. reflexivity.
  - assert (H' : Z.ltb max_request_size n = false) by (apply Z.ltb_ge; lia).
    rewrite H'. reflexivity.
Qed.

Lemma dispatch_size_check_witness :
  "30000000" <> "" /\
  dispatch (25 * 1024 * 1024) (fun _ => POk 30000000%Z) (Some "30000000") (POk tt)
    = PRaise error_code_TypeError /\
  dispatch (25 * 1024 * 1024) (fun _ => POk 1000%Z) (Some "1000") (POk tt) = POk tt.
Proof.
  assert (Hs1 : "30000000" <> "") by discriminate.
  assert (Hs2 : "1000" <> "") by discriminate.
  split; [exact Hs1|]. split.
  - apply (proj1 (dispatch_size_check (25 * 1024 * 1024) (fun _ => POk 30000000%Z)
                    "30000000" 30000000 (POk tt) Hs1 eq_refl)).
    lia.
  - apply (proj2 (dispatch_size_check (25 * 1024 * 1024) (fun _ => POk 1000%Z)
                    "1000" 1000 (POk tt) Hs2 eq_refl)).
    lia.
Defined.

End ValidationFacts.
